(** * Mini-Shell: the command-tree evaluator of [cmd.c]

    A shallow embedding of [cmd.c] and the properties its specification
    states about it.  The C functions are written in a small monad of
    system-call trees ([prog]); a handler ([run]) executes such a tree on
    the state of one process, with everything the operating system decides
    on its own (does a file open, does a fork succeed, how does an executed
    program terminate) taken from an oracle ([OS]). *)

From Stdlib Require Import ZArith Ascii String List Bool Lia.
From stdpp Require Import base option gmap.

Set Warnings "-register-all".
Open Scope string_scope.
Open Scope list_scope.
Open Scope Z_scope.

(** ** The command tree *)

(** Modelled from the spec: the word type is declared in a header that is
    not among the sources.  The evaluator only reads the resolved text of a
    word; argument words are chained through [next_word]. *)
Inductive word_t : Type :=
  mk_word { w_text : string; next_word : option word_t }.

(** [simple_command_t]: the fields [cmd.c] reads.  [in] is a keyword here,
    hence [in_]. *)
Record simple_command_t : Type := mk_simple_command {
  verb : option word_t;
  params : option word_t;
  in_ : option word_t;
  out : option word_t;
  err : option word_t;
  io_flags : Z
}.

(** Modelled from the spec: the operator enumeration is declared in a header
    that is not among the sources.  The spec names "none" for leaves and five
    operators; [OP_OTHER] stands for any other value the tag may hold. *)
Inductive operator_t : Type :=
| OP_NONE
| OP_SEQUENTIAL
| OP_PARALLEL
| OP_CONDITIONAL_ZERO
| OP_CONDITIONAL_NZERO
| OP_PIPE
| OP_OTHER (tag : Z).

(** [command_t]: pointers that may be NULL are options.  The back pointer
    [up] is never read by [cmd.c] and is left out. *)
Inductive command_t : Type :=
  mk_command {
    op : operator_t;
    scmd : option simple_command_t;
    cmd1 : option command_t;
    cmd2 : option command_t
  }.

(** Constants of the repository's headers ([cmd.h], the parser's header) and
    of [limits.h]; the headers are not among the sources, so the constants are
    parameters of the development. *)
Class constants : Type := {
  SHELL_EXIT : Z;
  IO_OUT_APPEND : Z;
  IO_ERR_APPEND : Z;
  PATH_MAX : Z
}.

(** Constants of the C library on Linux. *)
Definition READ : Z := 0.
Definition WRITE : Z := 1.
Definition STDIN_FILENO : Z := 0.
Definition STDOUT_FILENO : Z := 1.
Definition STDERR_FILENO : Z := 2.
Definition EXIT_FAILURE : Z := 1.
Definition O_RDONLY : Z := 0.
Definition O_WRONLY : Z := 1.
Definition O_CREAT : Z := 64.
Definition O_TRUNC : Z := 512.
Definition O_APPEND : Z := 1024.
Definition SIGSEGV : Z := 11.

(** ** Wait statuses, as [<sys/wait.h>] of glibc decodes them *)

Definition WEXITSTATUS (status : Z) : Z := Z.shiftr (Z.land status 65280) 8.
Definition WTERMSIG (status : Z) : Z := Z.land status 127.
Definition WSTOPSIG (status : Z) : Z := WEXITSTATUS status.
Definition WIFEXITED (status : Z) : bool := WTERMSIG status =? 0.
Definition WIFSTOPPED (status : Z) : bool := Z.land status 255 =? 127.

(** How a process ends: by [exit(code)] (or returning from an executed
    program), or killed by a signal. *)
Inductive termination : Type :=
| Exited (code : Z)
| Signaled (sig : Z).

(** The status [waitpid] stores for a terminated child. *)
Definition wstatus (t : termination) : Z :=
  match t with
  | Exited code => Z.shiftl (Z.land code 255) 8
  | Signaled sig => Z.land sig 127
  end.

(** ** The state of one process *)

Inductive file : Type :=
| Terminal
| Path (path : string) (flags : Z)
| PipeEnd (writing : bool).

(** An open file description; [ofd_id] tells two opens of one path apart. *)
Record ofd : Type := mk_ofd { ofd_id : nat; ofd_file : file }.

(** What a process did, with the result of each call. *)
Inductive event : Type :=
| EOpen (path : option string) (flags : Z) (fd : Z)
| EClose (fd : Z) (r : Z)
| EDup2 (oldfd newfd : Z) (r : Z)
| EDupfd (fd min : Z) (r : Z)
| EPipe (r : Z) (rd wr : Z)
| EFork (pid : Z)
| EWaitpid (pid : Z) (r : Z) (status : Z)
| EExecvp (file : string) (argv : list string)
| EExit (code : Z)
| EChdir (path : string) (r : Z)
| EGetcwd (r : option string)
| EPutenv (s : string) (r : Z)
| EWrite (fd : Z) (to : option ofd) (text : string).

Record proc : Type := mk_proc {
  p_cwd : string;
  p_fds : gmap Z ofd;
  p_env : list string;
  (* children not waited for yet, the youngest first, each with the way it
     ends; pids are names local to the parent *)
  p_children : list (Z * termination);
  p_next_pid : positive;
  p_trace : list event
}.

(** ** System calls *)

Inductive syscall : Type -> Type :=
| sys_open (path : option string) (flags : Z) (mode : Z) : syscall Z
| sys_close (fd : Z) : syscall Z
| sys_dup2 (oldfd newfd : Z) : syscall Z
| sys_dupfd (fd min : Z) : syscall Z
| sys_pipe : syscall (Z * (Z * Z))
| sys_waitpid (pid : Z) (options : Z) : syscall (Z * Z)
| sys_chdir (path : string) : syscall Z
| sys_getcwd (size : Z) : syscall (option string)
| sys_putenv (s : string) : syscall Z
| sys_dprintf (fd : Z) (text : string) : syscall Z.

(** What the operating system decides on its own.  Every answer may depend
    on the whole state of the asking process, its history included. *)
Record OS : Type := mk_OS {
  (* the call fails for a reason outside the process: a missing file or
     a refused permission for [open], a limit reached, an interruption *)
  os_fails : forall R : Type, proc -> syscall R -> bool;
  (* the directory [chdir] ends in, [None] when there is no such directory *)
  os_chdir : proc -> string -> option string;
  (* can a child be created *)
  os_fork : proc -> bool;
  (* how the program found for [execvp] terminates, [None] when none is found *)
  os_exec : proc -> string -> list string -> option termination;
  (* a signal that kills a forked child before it terminates by itself *)
  os_kill : proc -> option Z;
  (* how a child ends that returns from the evaluator into the read loop
     of [main.c], which is not part of this file *)
  os_stray : proc -> termination
}.
Arguments os_fails _ {R} _ _.

(** ** Programs: trees of system calls *)

(** [Fork], [Execvp] and [Exit] are constructors of their own because they
    act on the control flow: [fork] returns twice, [execvp] returns only
    when it fails and [exit] never returns.  [Segv] is the dereference of a
    NULL pointer. *)
Inductive prog (A : Type) : Type :=
| Ret (a : A)
| Call {R : Type} (c : syscall R) (k : R -> prog A)
| Fork (k : Z -> prog A)
| Execvp (file : string) (argv : list string) (k : Z -> prog A)
| Exit (code : Z)
| Segv.
Arguments Ret {A} a.
Arguments Call {A R} c k.
Arguments Fork {A} k.
Arguments Execvp {A} file argv k.
Arguments Exit {A} code.
Arguments Segv {A}.

Fixpoint bind {A B : Type} (m : prog A) (f : A -> prog B) : prog B :=
  match m with
  | Ret a => f a
  | Call c k => Call c (fun r => bind (k r) f)
  | Fork k => Fork (fun pid => bind (k pid) f)
  | Execvp file argv k => Execvp file argv (fun r => bind (k r) f)
  | Exit code => Exit code
  | Segv => Segv
  end.

Notation "'do' x <- m ; k" := (bind m (fun x => k))
  (at level 10, x name, m at level 100, k at level 200).
Notation "'do' ' p <- m ; k" := (bind m (fun x => let 'p := x in k))
  (at level 10, p pattern, m at level 100, k at level 200).

Definition call {R : Type} (c : syscall R) : prog R := Call c Ret.
Definition fork : prog Z := Fork Ret.
Definition execvp (file : string) (argv : list string) : prog Z :=
  Execvp file argv Ret.

(** ** The kernel: what each call does to the process *)

Definition log (e : event) (s : proc) : proc :=
  mk_proc (p_cwd s) (p_fds s) (p_env s) (p_children s) (p_next_pid s)
          (p_trace s ++ [e]).

Definition set_fds (fds : gmap Z ofd) (s : proc) : proc :=
  mk_proc (p_cwd s) fds (p_env s) (p_children s) (p_next_pid s) (p_trace s).

Definition set_cwd (d : string) (s : proc) : proc :=
  mk_proc d (p_fds s) (p_env s) (p_children s) (p_next_pid s) (p_trace s).

Definition set_env (e : list string) (s : proc) : proc :=
  mk_proc (p_cwd s) (p_fds s) e (p_children s) (p_next_pid s) (p_trace s).

Definition set_children (l : list (Z * termination)) (s : proc) : proc :=
  mk_proc (p_cwd s) (p_fds s) (p_env s) l (p_next_pid s) (p_trace s).

(** The lowest descriptor not in use, from [fd] upwards. *)
Fixpoint lowest_free (fuel : nat) (fds : gmap Z ofd) (fd : Z) : Z :=
  match fuel with
  | O => fd
  | S n =>
      match fds !! fd with
      | None => fd
      | Some _ => lowest_free n fds (fd + 1)
      end
  end.

Definition alloc_fd (fds : gmap Z ofd) (min : Z) : Z :=
  lowest_free (size fds) fds min.

(** [waitpid(pid, ...)]: the child asked for; any child when [pid] is -1
    (the youngest one here). *)
Fixpoint reap (pid : Z) (l : list (Z * termination))
  : option (Z * termination * list (Z * termination)) :=
  match l with
  | [] => None
  | (p, t) :: l' =>
      if (pid =? -1) || (pid =? p) then Some (p, t, l')
      else match reap pid l' with
           | Some (q, u, rest) => Some (q, u, (p, t) :: rest)
           | None => None
           end
  end.

(** ** The environment *)

(** An environment string [name=value] cut at its first [=]; [None] when
    there is no [=] in it. *)
Fixpoint env_split (str : string) : option (string * string) :=
  match str with
  | EmptyString => None
  | String a rest =>
      if Ascii.eqb a "="%char then Some (EmptyString, rest)
      else match env_split rest with
           | Some (n, v) => Some (String a n, v)
           | None => None
           end
  end.

(** [binds name entry]: the entry starts with [name] and an [=] follows. *)
Fixpoint binds (name entry : string) : bool :=
  match name, entry with
  | EmptyString, String c _ => Ascii.eqb c "="%char
  | String a name', String c entry' => Ascii.eqb a c && binds name' entry'
  | _, EmptyString => false
  end.

(** What follows [name] and the [=] in an entry that binds [name]. *)
Fixpoint after (name entry : string) : string :=
  match name, entry with
  | EmptyString, String _ v => v
  | String _ name', String _ entry' => after name' entry'
  | _, EmptyString => EmptyString
  end.

(** [getenv(name)]: the value of the first entry that binds [name]. *)
Fixpoint getenv (name : string) (env : list string) : option string :=
  match env with
  | [] => None
  | e :: rest => if binds name e then Some (after name e) else getenv name rest
  end.

(** The environment with [str] in the place of the first entry that binds
    [name], or at the end when no entry does. *)
Fixpoint env_set (name str : string) (env : list string) : list string :=
  match env with
  | [] => [str]
  | e :: rest =>
      if binds name e then str :: rest else e :: env_set name str rest
  end.

(** [unsetenv(name)]: without the entries that bind [name]. *)
Definition unsetenv (name : string) (env : list string) : list string :=
  List.filter (fun e => negb (binds name e)) env.

(** The environment after a successful [putenv(str)]: [str] becomes the
    entry of its name, replacing the entry the name had; a string without
    [=] removes the name. *)
Definition putenv_env (str : string) (env : list string) : list string :=
  match env_split str with
  | Some (name, _) => env_set name str env
  | None => unsetenv str env
  end.

Section Kernel.
Context (os : OS).

(** A call fails by itself on a descriptor that is not open, on a NULL
    path, on a child that does not exist and on a buffer too small for the
    working directory; otherwise it fails when the oracle says so.  A failed
    [waitpid] stores no status (0 stands for the untouched variable, which
    [cmd.c] never reads then). *)
Definition kernel {R : Type} (c : syscall R) (s : proc) : R * proc :=
  match c in syscall R return R * proc with
  | sys_open path flags mode =>
      match path with
      | None => (-1, log (EOpen path flags (-1)) s)
      | Some p =>
          if os_fails os s (sys_open path flags mode)
          then (-1, log (EOpen path flags (-1)) s)
          else
            let fd := alloc_fd (p_fds s) 0 in
            let d := mk_ofd (List.length (p_trace s)) (Path p flags) in
            (fd, log (EOpen path flags fd) (set_fds (<[fd := d]> (p_fds s)) s))
      end
  | sys_close fd =>
      match p_fds s !! fd with
      | None => (-1, log (EClose fd (-1)) s)
      | Some _ => (0, log (EClose fd 0) (set_fds (delete fd (p_fds s)) s))
      end
  | sys_dup2 oldfd newfd =>
      match p_fds s !! oldfd with
      | None => (-1, log (EDup2 oldfd newfd (-1)) s)
      | Some d =>
          if (newfd <? 0) || os_fails os s (sys_dup2 oldfd newfd)
          then (-1, log (EDup2 oldfd newfd (-1)) s)
          else (newfd, log (EDup2 oldfd newfd newfd)
                           (set_fds (<[newfd := d]> (p_fds s)) s))
      end
  | sys_dupfd fd min =>
      match p_fds s !! fd with
      | None => (-1, log (EDupfd fd min (-1)) s)
      | Some d =>
          if (min <? 0) || os_fails os s (sys_dupfd fd min)
          then (-1, log (EDupfd fd min (-1)) s)
          else
            let n := alloc_fd (p_fds s) min in
            (n, log (EDupfd fd min n) (set_fds (<[n := d]> (p_fds s)) s))
      end
  | sys_pipe =>
      if os_fails os s sys_pipe
      then ((-1, (0, 0)), log (EPipe (-1) 0 0) s)
      else
        let id := List.length (p_trace s) in
        let rd := alloc_fd (p_fds s) 0 in
        let fds1 := <[rd := mk_ofd id (PipeEnd false)]> (p_fds s) in
        let wr := alloc_fd fds1 0 in
        let fds2 := <[wr := mk_ofd id (PipeEnd true)]> fds1 in
        ((0, (rd, wr)), log (EPipe 0 rd wr) (set_fds fds2 s))
  | sys_waitpid pid options =>
      if os_fails os s (sys_waitpid pid options)
      then ((-1, 0), log (EWaitpid pid (-1) 0) s)
      else
        match reap pid (p_children s) with
        | None => ((-1, 0), log (EWaitpid pid (-1) 0) s)
        | Some (p, t, rest) =>
            ((p, wstatus t),
             log (EWaitpid pid p (wstatus t)) (set_children rest s))
        end
  | sys_chdir path =>
      match os_chdir os s path with
      | None => (-1, log (EChdir path (-1)) s)
      | Some d => (0, log (EChdir path 0) (set_cwd d s))
      end
  | sys_getcwd size =>
      if os_fails os s (sys_getcwd size)
         || (size <? Z.of_nat (String.length (p_cwd s)) + 1)
      then (None, log (EGetcwd None) s)
      else (Some (p_cwd s), log (EGetcwd (Some (p_cwd s))) s)
  | sys_putenv str =>
      if os_fails os s (sys_putenv str)
      then (-1, log (EPutenv str (-1)) s)
      else (0, log (EPutenv str 0) (set_env (putenv_env str (p_env s)) s))
  | sys_dprintf fd text =>
      match p_fds s !! fd with
      | None => (-1, log (EWrite fd None text) s)
      | Some d => (Z.of_nat (String.length text),
                   log (EWrite fd (Some d) text) s)
      end
  end.

(** How a run of a program ends: it returns a value to its caller, or
    the process is gone. *)
Inductive outcome (A : Type) : Type :=
| Returned (a : A)
| Terminated (t : termination).
#[global] Arguments Returned {A} a.
#[global] Arguments Terminated {A} t.

(** The process a fork creates: a copy of its parent that has no children
    of its own and in which [fork] returned 0. *)
Definition child_of (s : proc) : proc :=
  log (EFork 0) (set_children [] s).

(** The parent after a fork: one more child, whose way of ending [t]
    is what [waitpid] will report. *)
Definition parent_of (s : proc) (t : termination) : proc :=
  log (EFork (Z.pos (p_next_pid s)))
      (mk_proc (p_cwd s) (p_fds s) (p_env s)
               ((Z.pos (p_next_pid s), t) :: p_children s)
               (Pos.succ (p_next_pid s)) (p_trace s)).

(** How a child ends: killed from outside, or the way its own run ends. *)
Definition fate {A : Type} (child : proc) (r : outcome A * proc)
  : termination :=
  match os_kill os child with
  | Some sig => Signaled sig
  | None =>
      match r with
      | (Terminated t, _) => t
      | (Returned _, s') => os_stray os s'
      end
  end.

(** Running a program in a process.  At a fork the rest of the program
    runs twice: in the child, where [fork] returned 0, to find how the
    child ends, and in the parent, where it returned the child's pid. *)
Fixpoint run {A : Type} (p : prog A) (s : proc) : outcome A * proc :=
  match p with
  | Ret a => (Returned a, s)
  | Call c k => let (r, s') := kernel c s in run (k r) s'
  | Fork k =>
      if os_fork os s
      then run (k (Z.pos (p_next_pid s)))
               (parent_of s (fate (child_of s) (run (k 0) (child_of s))))
      else run (k (-1)) (log (EFork (-1)) s)
  | Execvp file argv k =>
      match os_exec os s file argv with
      | Some t => (Terminated t, log (EExecvp file argv) s)
      | None => run (k (-1)) (log (EExecvp file argv) s)
      end
  | Exit code => (Terminated (Exited code), log (EExit code) s)
  | Segv => (Terminated (Signaled SIGSEGV), s)
  end.
End Kernel.

(** ** The functions of [cmd.c] *)

(** The C library calls, as programs. *)
Definition open (path : option string) (flags mode : Z) : prog Z :=
  call (sys_open path flags mode).
Definition close (fd : Z) : prog Z := call (sys_close fd).
Definition dup2 (oldfd newfd : Z) : prog Z := call (sys_dup2 oldfd newfd).
(** [fcntl(fd, F_DUPFD, min)] *)
Definition fcntl_F_DUPFD (fd min : Z) : prog Z := call (sys_dupfd fd min).
Definition pipe : prog (Z * (Z * Z)) := call sys_pipe.
Definition waitpid (pid options : Z) : prog (Z * Z) :=
  call (sys_waitpid pid options).
Definition chdir (path : string) : prog Z := call (sys_chdir path).
Definition getcwd (size : Z) : prog (option string) := call (sys_getcwd size).
Definition putenv (s : string) : prog Z := call (sys_putenv s).
Definition dprintf (fd : Z) (text : string) : prog Z :=
  call (sys_dprintf fd text).

Definition strlen (s : string) : Z := Z.of_nat (String.length s).

Definition newline : string := String (ascii_of_nat 10) EmptyString.

(** [s[0] == '/'] *)
Definition starts_with_slash (s : string) : bool :=
  match s with
  | String c _ => Ascii.eqb c "/"%char
  | EmptyString => false
  end.

(** [strchr(s, c) != NULL] *)
Fixpoint strchr (s : string) (c : Ascii.ascii) : bool :=
  match s with
  | EmptyString => false
  | String a s' => Ascii.eqb a c || strchr s' c
  end.

(** [!x] on an [int] *)
Definition lnot (x : Z) : Z := if x =? 0 then 1 else 0.

(** Modelled from the spec: [get_word] is in a file that is not among the
    sources; it gives the resolved text of a word, and NULL for no word. *)
Definition get_word (w : option word_t) : option string :=
  match w with
  | Some w => Some (w_text w)
  | None => None
  end.

Fixpoint words_from (w : word_t) : list string :=
  w_text w :: match next_word w with
              | Some w' => words_from w'
              | None => []
              end.

Definition words (w : option word_t) : list string :=
  match w with
  | Some w => words_from w
  | None => []
  end.

(** Modelled from the spec: [get_argv] is in a file that is not among the
    sources; the argument vector mirrors the verb and the argument words. *)
Definition get_argv (s : simple_command_t) : option (list string) :=
  Some (match get_word (verb s) with
        | Some v => v :: words (params s)
        | None => words (params s)
        end).

Section Shell.
Context {K : constants}.

(** Internal change-directory command.  The sum of the lengths is
    computed in [size_t]; the lengths of two strings held in memory and 1
    do not wrap around. *)
Definition shell_cd (dir : option word_t) : prog bool :=
  match dir with
  | None => Ret true
  | Some _ =>
      match get_word dir with
      | None => Segv
      | Some next_dir =>
          if starts_with_slash next_dir then
            do r <- chdir next_dir;
            if r =? -1 then Ret false else Ret true
          else
            do path <- getcwd PATH_MAX;
            match path with
            | None => Ret false
            | Some path =>
                let current_path_len := strlen path in
                if current_path_len + strlen next_dir + 1 >=? PATH_MAX
                then Ret false
                else
                  let path := String.append path
                                (String.append "/" next_dir) in
                  do r <- chdir path;
                  if r =? -1 then Ret false else Ret true
            end
      end
  end.

(** Internal exit/quit command. *)
Definition shell_exit : prog Z := Ret SHELL_EXIT.

(** [file_operations] is two [if] blocks in a row: the first installs
    the input redirection, the second the output and error ones. *)
Definition redirect_input (s : simple_command_t) : prog unit :=
  match in_ s with
  | Some w =>
      do in_fd <- open (Some (w_text w)) O_RDONLY 0;
      if in_fd =? -1 then Exit 1
      else
        do r <- dup2 in_fd STDIN_FILENO;
        if r =? -1 then Exit 1
        else do _ <- close in_fd; Ret tt
  | None => Ret tt
  end.

Definition redirect_output (s : simple_command_t) : prog unit :=
  match out s, err s with
  | None, None => Ret tt
  | _, _ =>
      let out := get_word (out s) in
      let err := get_word (err s) in
      do '(out_fd, counter) <-
           (if negb (Z.land (io_flags s)
                            (Z.lor IO_OUT_APPEND IO_ERR_APPEND) =? 0)
            then
              do fd <- open out (Z.lor O_WRONLY (Z.lor O_CREAT O_APPEND)) 420;
              Ret (fd, 1)
            else
              do fd <- open out (Z.lor O_WRONLY (Z.lor O_CREAT O_TRUNC)) 420;
              Ret (fd, 2));
      do _ <- dup2 out_fd STDOUT_FILENO;
      do err_fd <-
           match err with
           | Some e =>
               do err_fd <-
                    (if match out with
                        | Some o => String.eqb o e
                        | None => false
                        end
                     then Ret out_fd
                     else if counter =? 1
                     then open err (Z.lor O_WRONLY (Z.lor O_CREAT O_APPEND)) 420
                     else if counter =? 2
                     then open err (Z.lor O_WRONLY (Z.lor O_CREAT O_TRUNC)) 420
                     else Ret (-1));
               do _ <- dup2 err_fd STDERR_FILENO;
               Ret err_fd
           | None => Ret (-1)
           end;
      do _ <- (if negb (out_fd =? -1) && negb (out_fd =? err_fd)
               then close out_fd else Ret 0);
      do _ <- (if negb (err_fd =? -1) then close err_fd else Ret 0);
      Ret tt
  end.

Definition file_operations (s : simple_command_t) : prog unit :=
  do _ <- redirect_input s;
  redirect_output s.

Definition parse_simple_cd_case (command : string) (s : simple_command_t)
  : prog Z :=
  do out <- fcntl_F_DUPFD STDOUT_FILENO STDOUT_FILENO;
  do err <- fcntl_F_DUPFD STDERR_FILENO STDERR_FILENO;
  do _ <- file_operations s;
  do r <- dup2 out STDOUT_FILENO;
  if r =? -1 then Exit 1
  else
    do r <- dup2 err STDERR_FILENO;
    if r =? -1 then Exit 1
    else
      do ok <- shell_cd (params s);
      Ret (if ok : bool then 0 else -1).

Definition parse_simple_quit_case (command : string) : prog Z :=
  shell_exit.

Definition parse_simple_pwd_case (command : string) (s : simple_command_t)
  : prog Z :=
  do out <- fcntl_F_DUPFD STDOUT_FILENO STDOUT_FILENO;
  do err <- fcntl_F_DUPFD STDERR_FILENO STDERR_FILENO;
  do _ <- file_operations s;
  do path <- getcwd PATH_MAX;
  do _ <- dprintf STDOUT_FILENO
            (String.append (match path with
                            | Some p => p
                            | None => "(null)"
                            end) newline);
  do r <- dup2 out STDOUT_FILENO;
  if r =? -1 then Exit 1
  else
    do r <- dup2 err STDERR_FILENO;
    if r =? -1 then Exit 1
    else Ret 0.

Definition parse_simple_external (command : string) (s : simple_command_t)
  : prog Z :=
  do pid <- fork;
  if pid =? -1 then Ret (-1)
  else if pid =? 0 then
    do _ <- file_operations s;
    match get_argv s with
    | None => Exit EXIT_FAILURE
    | Some args =>
        do r <- execvp command args;
        if r =? -1 then
          do _ <- dprintf STDERR_FILENO
                    (String.append "Execution failed for '"
                       (String.append command (String.append "'" newline)));
          Exit EXIT_FAILURE
        else Ret 0
    end
  else
    do '(r, state) <- waitpid pid 0;
    if r =? -1 then Ret (-1)
    else if WIFEXITED state then Ret (WSTOPSIG state)
    else Ret (-1).

(** Parse a simple command (internal, environment variable assignment,
    external command). *)
Definition parse_simple (s : option simple_command_t) (level : Z)
    (father : option command_t) : prog Z :=
  match s with
  | None => Ret (-1)
  | Some s =>
      match verb s with
      | None => Ret (-1)
      | Some _ =>
          match get_word (verb s) with
          | None => Segv
          | Some com =>
              if String.eqb com "cd" then parse_simple_cd_case com s
              else if String.eqb com "exit" || String.eqb com "quit"
              then parse_simple_quit_case com
              else if String.eqb com "pwd" then parse_simple_pwd_case com s
              else if strchr com "="%char then putenv com
              else parse_simple_external com s
          end
      end
  end.

Section Operators.
(** [parse_command] on a pointer that may be NULL. *)
Variable parse_command_ptr :
  option command_t -> Z -> option command_t -> prog Z.

(** Process two commands in parallel, by creating two children. *)
Definition run_in_parallel (cmd1 cmd2 : option command_t) (level : Z)
    (father : option command_t) : prog bool :=
  do pid1 <- fork;
  if pid1 =? -1 then Ret false
  else
    do _ <- (if pid1 =? 0
             then do r <- parse_command_ptr cmd1 (level + 1) father; Exit r
             else Ret tt);
    do pid2 <- fork;
    if pid2 =? -1 then Ret false
    else
      do _ <- (if pid2 =? 0
               then do r <- parse_command_ptr cmd2 (level + 1) father; Exit r
               else Ret tt);
      do '(r, status1) <- waitpid pid1 0;
      if r =? -1 then Ret false
      else
        do '(r, status2) <- waitpid pid2 0;
        if r =? -1 then Ret false
        else if WIFEXITED status1 && WIFEXITED status2
        then Ret ((WSTOPSIG status1 =? 0) && (WSTOPSIG status2 =? 0))
        else Ret false.

(** Run commands by creating an anonymous pipe (cmd1 | cmd2). *)
Definition run_on_pipe (cmd1 cmd2 : option command_t) (level : Z)
    (father : option command_t) : prog bool :=
  do '(r, (pipefd_READ, pipefd_WRITE)) <- pipe;
  if r =? -1 then Ret false
  else
    do pid1 <- fork;
    do _ <- (if pid1 =? 0 then
               do _ <- close pipefd_READ;
               do r <- dup2 pipefd_WRITE STDOUT_FILENO;
               if r =? -1 then Exit 1
               else
                 do r <- parse_command_ptr cmd1 level father;
                 Exit (lnot r)
             else Ret tt);
    do pid2 <- fork;
    do _ <- (if pid2 =? 0 then
               do _ <- close pipefd_WRITE;
               do r <- dup2 pipefd_READ STDIN_FILENO;
               if r =? -1 then Exit 1
               else
                 do r <- parse_command_ptr cmd2 level father;
                 Exit (lnot r)
             else Ret tt);
    do _ <- close pipefd_READ;
    do _ <- close pipefd_WRITE;
    do '(r, state) <- waitpid pid1 0;
    if r =? -1 then Ret false
    else
      do '(r, state) <- waitpid pid2 0;
      if r =? -1 then Ret false
      else if WIFSTOPPED state || negb (WSTOPSIG state =? 0)
      then Ret false
      else Ret true.
End Operators.

(** Parse and execute a command. *)
Fixpoint parse_command (c : command_t) (level : Z)
    (father : option command_t) {struct c} : prog Z :=
  let parse_command_ptr (c' : option command_t) (level : Z)
        (father : option command_t) : prog Z :=
    match c' with
    | Some c' => parse_command c' level father
    | None => Segv
    end in
  match op c with
  | OP_NONE => parse_simple (scmd c) level (Some c)
  | OP_SEQUENTIAL =>
      do _ <- parse_command_ptr (cmd1 c) level (Some c);
      do _ <- parse_command_ptr (cmd2 c) level (Some c);
      Ret 0
  | OP_PARALLEL =>
      do _ <- run_in_parallel parse_command_ptr (cmd1 c) (cmd2 c) level (Some c);
      Ret 0
  | OP_CONDITIONAL_NZERO =>
      do ret1 <- parse_command_ptr (cmd1 c) level (Some c);
      if negb (ret1 =? 0)
      then parse_command_ptr (cmd2 c) (level + 1) (Some c)
      else Ret ret1
  | OP_CONDITIONAL_ZERO =>
      do ret1 <- parse_command_ptr (cmd1 c) level (Some c);
      if ret1 =? 0
      then parse_command_ptr (cmd2 c) (level + 1) (Some c)
      else Ret ret1
  | OP_PIPE =>
      do ok <- run_on_pipe parse_command_ptr (cmd1 c) (cmd2 c) level (Some c);
      if negb ok then Ret 0 else Ret 1
  | OP_OTHER _ => Ret SHELL_EXIT
  end.
End Shell.

(** [parse_command] on a pointer that may be NULL, as [parse_command] calls
    itself on [c->cmd1] and [c->cmd2]. *)
Definition parse_command_ptr {K : constants} (c : option command_t)
    (level : Z) (father : option command_t) : prog Z :=
  match c with
  | Some c => parse_command c level father
  | None => Segv
  end.

(** ** Well-behaved programs: a forked child never returns *)

(** [exits p]: [p] never returns to its caller, whatever the calls answer
    ([execvp] only ever returns -1). *)
Fixpoint exits {A : Type} (p : prog A) : Prop :=
  match p with
  | Ret _ => False
  | Call c k => forall r, exits (k r)
  | Fork k => forall pid, exits (k pid)
  | Execvp _ _ k => exits (k (-1))
  | Exit _ => True
  | Segv => True
  end.

(** [tidy p]: at every fork of [p], what runs where [fork] returned 0 never
    returns. *)
Fixpoint tidy {A : Type} (p : prog A) : Prop :=
  match p with
  | Ret _ => True
  | Call c k => forall r, tidy (k r)
  | Fork k => exits (k 0) /\ forall pid, tidy (k pid)
  | Execvp _ _ k => tidy (k (-1))
  | Exit _ => True
  | Segv => True
  end.

(** A property of a command pointer: it holds of the command pointed to. *)
Definition on_ptr (P : command_t -> Prop) (c : option command_t) : Prop :=
  match c with
  | Some c => P c
  | None => True
  end.

(** ** Notions the properties are stated with *)

(** The outcome of a second program run after a first one. *)
Definition bind_outcome {A B : Type} (r : outcome A * proc)
    (f : A -> proc -> outcome B * proc) : outcome B * proc :=
  match r with
  | (Returned a, s) => f a s
  | (Terminated t, s) => (Terminated t, s)
  end.

(** The path [shell_cd] hands to [chdir] for the argument [next_dir]. *)
Definition cd_target (s : proc) (next_dir : string) : string :=
  if starts_with_slash next_dir then next_dir
  else String.append (p_cwd s) (String.append "/" next_dir).

(** The flags [file_operations] opens the output and error targets with. *)
Definition out_flags {K : constants} (sc : simple_command_t) : Z :=
  if negb (Z.land (io_flags sc) (Z.lor IO_OUT_APPEND IO_ERR_APPEND) =? 0)
  then Z.lor O_WRONLY (Z.lor O_CREAT O_APPEND)
  else Z.lor O_WRONLY (Z.lor O_CREAT O_TRUNC).

(** The one [close] of a descriptor that was opened. *)
Definition closes (fd : Z) : list event :=
  if fd =? -1 then [] else [EClose fd 0].

Section PipeChildren.
Context (os : OS).

(** The process in which the left-hand command of a pipe is evaluated:
    the first child, once it has closed the read end and put the write end
    on its standard output. *)
Definition pipe_left (s : proc) : proc :=
  let '(_, (rd, wr), s1) := kernel os sys_pipe s in
  snd (kernel os (sys_dup2 wr STDOUT_FILENO)
         (snd (kernel os (sys_close rd) (child_of s1)))).

(** The process in which the right-hand command of a pipe is evaluated:
    the second child, once it has closed the write end and put the read end
    on its standard input.  How the first child ends is of no matter to
    it: a child starts without children. *)
Definition pipe_right (s : proc) : proc :=
  let '(_, (rd, wr), s1) := kernel os sys_pipe s in
  snd (kernel os (sys_dup2 rd STDIN_FILENO)
         (snd (kernel os (sys_close wr)
                 (child_of (parent_of s1 (Exited 0)))))).

End PipeChildren.

(** The specification's sentence on redirections of a built-in: when a
    redirection cannot be installed, the built-in returns a failure status
    to the shell, which goes on. *)
Definition builtin_reports_failure {K : constants} (os : OS)
    (c : command_t) (s : proc) : Prop :=
  exists r s', r <> 0 /\ run os (parse_command c 0 None) s = (Returned r, s').

(** ** A machine to try the evaluator on *)

Definition constants0 : constants :=
  {| SHELL_EXIT := -100; IO_OUT_APPEND := 1; IO_ERR_APPEND := 2;
     PATH_MAX := 16 |}.

Definition dirs0 : list string := ["/a/b"; "/a/b/sub"; "/tmp"].

(** Every call works, except that the file [/missing] cannot be opened;
    the directories are those of [dirs0]; the programs are [true] and
    [false]. *)
Definition os0 : OS :=
  {| os_fails := fun R s c =>
       match c with
       | sys_open (Some p) _ _ => String.eqb p "/missing"
       | _ => false
       end;
     os_chdir := fun s p => if existsb (String.eqb p) dirs0 then Some p else None;
     os_fork := fun s => true;
     os_exec := fun s file argv =>
       if String.eqb file "true" then Some (Exited 0)
       else if String.eqb file "false" then Some (Exited 1)
       else None;
     os_kill := fun s => None;
     os_stray := fun s => Exited 0 |}.

(** As [os0], but a process that has a child cannot fork another one. *)
Definition os_one_child : OS :=
  {| os_fails := @os_fails os0;
     os_chdir := os_chdir os0;
     os_fork := fun s => match p_children s with [] => true | _ => false end;
     os_exec := os_exec os0;
     os_kill := os_kill os0;
     os_stray := os_stray os0 |}.

Definition tty (n : nat) : ofd := mk_ofd n Terminal.

(** A shell in [/a/b] with its three standard descriptors on the terminal. *)
Definition shell0 : proc :=
  {| p_cwd := "/a/b";
     p_fds := <[0 := tty 0]> (<[1 := tty 1]> (<[2 := tty 2]> ∅));
     p_env := [];
     p_children := [];
     p_next_pid := 100%positive;
     p_trace := [] |}.

Definition word (t : string) : option word_t := Some (mk_word t None).

Definition simple (v : string) (arg : option word_t) : simple_command_t :=
  mk_simple_command (word v) arg None None None 0.

Definition leaf (sc : simple_command_t) : command_t :=
  mk_command OP_NONE (Some sc) None None.

Definition node (o : operator_t) (a b : command_t) : command_t :=
  mk_command o None (Some a) (Some b).

(** [cd /tmp < /missing]: a built-in whose input redirection cannot be
    installed. *)
Definition cd_from_missing : command_t :=
  leaf (mk_simple_command (word "cd") (word "/tmp") (word "/missing")
                          None None 0).

(** [pwd > log 2> log]: output and error go to one path. *)
Definition both_to_log : simple_command_t :=
  mk_simple_command (word "pwd") None None (word "log") (word "log") 0.

(** [pwd >> out 2> err]: output and error go to two paths. *)
Definition out_and_err : simple_command_t :=
  mk_simple_command (word "pwd") None None (word "out") (word "err") 1.

(** ** More notions and machines *)

(** The oracle [os] with another answer for children that return into the
    read loop. *)
Definition with_stray (os : OS) (stray : proc -> termination) : OS :=
  {| os_fails := @os_fails os;
     os_chdir := os_chdir os;
     os_fork := os_fork os;
     os_exec := os_exec os;
     os_kill := os_kill os;
     os_stray := stray |}.

(** Children can always be created and waited for. *)
Definition reaping (os : OS) : Prop :=
  (forall s, os_fork os s = true)
  /\ (forall s pid, os_fails os s (sys_waitpid pid 0) = false).

(** A leaf without redirections. *)
Definition no_redirection (sc : simple_command_t) : Prop :=
  in_ sc = None /\ out sc = None /\ err sc = None.

(** The exit status [parse_simple_external] decodes from a wait status. *)
Definition decode (t : termination) : Z :=
  if WIFEXITED (wstatus t) then WSTOPSIG (wstatus t) else -1.

(** How the child of an external command ends when nobody kills it: by the
    redirections if they end it, else as the executed program does, else
    with [EXIT_FAILURE]. *)
Definition external_child {K : constants} (os : OS) (com : string)
    (sc : simple_command_t) (s : proc) : termination :=
  match run os (file_operations sc) (child_of s) with
  | (Terminated t, _) => t
  | (Returned _, s1) =>
      match get_argv sc with
      | None => Exited EXIT_FAILURE
      | Some argv =>
          match os_exec os s1 com argv with
          | Some t => t
          | None => Exited EXIT_FAILURE
          end
      end
  end.

(** What a built-in that returns has done to the descriptors. *)
Definition builtin_fds (sc : simple_command_t) (s s' : proc) (d1 d2 : ofd)
  : Prop :=
  exists n1 n2,
    (2 < n1 /\ 2 < n2 /\ n1 <> n2
     /\ p_fds s !! n1 = None /\ p_fds s !! n2 = None)
    /\ (p_fds s' !! STDOUT_FILENO = Some d1
        /\ p_fds s' !! STDERR_FILENO = Some d2
        /\ p_fds s' !! n1 = Some d1 /\ p_fds s' !! n2 = Some d2)
    /\ (forall x d, x <> STDIN_FILENO -> x <> STDOUT_FILENO ->
                    x <> STDERR_FILENO -> x <> n1 -> x <> n2 ->
                    p_fds s !! x = Some d -> p_fds s' !! x = Some d)
    /\ (forall w, in_ sc = Some w -> is_Some (p_fds s !! STDIN_FILENO) ->
                  exists id, p_fds s' !! STDIN_FILENO
                             = Some (mk_ofd id (Path (w_text w) O_RDONLY))).

(** [keeps_children os p]: when [p] has run, the children not waited for
    are those there were before. *)
Definition keeps_children (os : OS) {A : Type} (p : prog A) : Prop :=
  forall s, p_children (snd (run os p s)) = p_children s.

(** The calls that change the children not waited for. *)
Definition is_waitpid {R : Type} (c : syscall R) : bool :=
  match c with
  | sys_waitpid _ _ => true
  | _ => false
  end.

(** As [os0], with a program [crash] that is killed by SIGSEGV. *)
Definition os_crash : OS :=
  {| os_fails := @os_fails os0;
     os_chdir := os_chdir os0;
     os_fork := os_fork os0;
     os_exec := fun s file argv =>
       if String.eqb file "crash" then Some (Signaled SIGSEGV)
       else os_exec os0 s file argv;
     os_kill := os_kill os0;
     os_stray := os_stray os0 |}.

(** [shell0] with one more descriptor, 7, on the terminal. *)
Definition shell_with_7 : proc :=
  set_fds (<[7 := tty 7]> (p_fds shell0)) shell0.

(** As [os0], but no child can be created while both ends of a pipe are
    open and the process has forked nothing yet. *)
Definition os_no_fork_after_pipe : OS :=
  {| os_fails := @os_fails os0;
     os_chdir := os_chdir os0;
     os_fork := fun s =>
       match last (p_trace s) with
       | Some (EPipe _ _ _) => false
       | _ => true
       end;
     os_exec := os_exec os0;
     os_kill := os_kill os0;
     os_stray := os_stray os0 |}.

(** As [os0], but no pipe can be created. *)
Definition os_no_pipe : OS :=
  {| os_fails := fun R s c =>
       match c with
       | sys_pipe => true
       | _ => false
       end;
     os_chdir := os_chdir os0;
     os_fork := os_fork os0;
     os_exec := os_exec os0;
     os_kill := os_kill os0;
     os_stray := os_stray os0 |}.

(** As [os0], but every wait is interrupted. *)
Definition os_no_wait : OS :=
  {| os_fails := fun R s c =>
       match c with
       | sys_waitpid _ _ => true
       | _ => false
       end;
     os_chdir := os_chdir os0;
     os_fork := os_fork os0;
     os_exec := os_exec os0;
     os_kill := os_kill os0;
     os_stray := os_stray os0 |}.

(** [shell0] with two variables in its environment. *)
Definition shell_with_env : proc := set_env ["A=1"; "B=2"] shell0.

(** [pwd > log] *)
Definition pwd_to_log : simple_command_t :=
  mk_simple_command (word "pwd") None None (word "log") None 0.

(** [pwd < log] *)
Definition pwd_from_log : simple_command_t :=
  mk_simple_command (word "pwd") None (word "log") None None 0.

(** * Properties *)

(** ** Descriptors *)

Lemma lowest_free_spec (n : nat) (fds : gmap Z ofd) (k : Z) :
  fds !! lowest_free n fds k = None
  ∨ (∀ i, k ≤ i ≤ k + Z.of_nat n → is_Some (fds !! i)).
Proof.
  revert k. induction n as [|n IH]; intros k; simpl.
  - destruct (fds !! k) eqn:E; [right | by left].
    intros i Hi. replace i with k by lia. by rewrite E.
  - destruct (fds !! k) eqn:E; [| by left].
    destruct (IH (k + 1)) as [H | H]; [by left | right].
    intros i Hi. destruct (decide (i = k)) as [-> | Hne].
    + by rewrite E.
    + apply H. lia.
Qed.

Lemma alloc_fd_free (fds : gmap Z ofd) (min : Z) :
  fds !! alloc_fd fds min = None.
Proof.
  unfold alloc_fd.
  destruct (lowest_free_spec (size fds) fds min) as [H | H]; [done |].
  exfalso.
  assert (Hsub : list_to_set (seqZ min (Z.of_nat (size fds) + 1)) ⊆ dom fds).
  { intros i Hi. apply elem_of_list_to_set, elem_of_seqZ in Hi.
    apply elem_of_dom, H. lia. }
  apply subseteq_size in Hsub.
  rewrite size_list_to_set, length_seqZ, size_dom in Hsub by apply NoDup_seqZ.
  lia.
Qed.

Lemma lowest_free_ge (n : nat) (fds : gmap Z ofd) (k : Z) :
  k <= lowest_free n fds k.
Proof.
  revert k. induction n as [| n IH]; intros k; simpl; [lia |].
  destruct (fds !! k); [| lia]. specialize (IH (k + 1)). lia.
Qed.

Lemma alloc_fd_ge (fds : gmap Z ofd) (min : Z) : min <= alloc_fd fds min.
Proof. apply lowest_free_ge. Qed.

(** ** Running a program after another *)

Lemma exits_bind_l {A B : Type} (m : prog A) (f : A -> prog B) :
  exits m -> exits (bind m f).
Proof. induction m; simpl; intros Hm; try done; intros; eauto. Qed.

Lemma exits_bind_r {A B : Type} (m : prog A) (f : A -> prog B) :
  (forall a, exits (f a)) -> exits (bind m f).
Proof. intros Hf. induction m; simpl; try done; intros; eauto. Qed.

Lemma tidy_bind {A B : Type} (m : prog A) (f : A -> prog B) :
  tidy m -> (forall a, tidy (f a)) -> tidy (bind m f).
Proof.
  intros Hm Hf. induction m; simpl in *; try done; eauto.
  destruct Hm as [He Ht]. split; [by apply exits_bind_l | eauto].
Qed.

Section Run.
Context (os : OS).

Lemma run_exits_bind {A B : Type} (m : prog A) (f : A -> prog B) s :
  exits m ->
  exists t s', run os m s = (Terminated t, s')
               /\ run os (bind m f) s = (Terminated t, s').
Proof.
  revert s. induction m as [a | R c k IH | k IH | file argv k IH | code |];
    intros s Hm; simpl in *.
  - done.
  - destruct (kernel os c s) as [r s']. by apply IH.
  - destruct (os_fork os s); [| by apply IH].
    destruct (IH 0 (child_of s) (Hm 0)) as (t & s' & E1 & E2).
    rewrite E1, E2. by apply IH.
  - destruct (os_exec os s file argv); [by eauto | by apply IH].
  - by eauto.
  - by eauto.
Qed.

Lemma run_exits {A : Type} (m : prog A) s :
  exits m -> exists t s', run os m s = (Terminated t, s').
Proof.
  intros Hm. destruct (run_exits_bind m (@Ret A) s Hm) as (t & s' & E & _).
  eauto.
Qed.

Lemma run_bind {A B : Type} (m : prog A) (f : A -> prog B) s :
  tidy m ->
  run os (bind m f) s = bind_outcome (run os m s) (fun a => run os (f a)).
Proof.
  revert s. induction m as [a | R c k IH | k IH | file argv k IH | code |];
    intros s Hm; simpl in *; try done.
  - destruct (kernel os c s) as [r s']. by apply IH.
  - destruct Hm as [He Ht]. destruct (os_fork os s); [| by apply IH].
    destruct (run_exits_bind (k 0) f (child_of s) He) as (t & s' & E1 & E2).
    rewrite E1, E2. by apply IH.
  - destruct (os_exec os s file argv); [done | by apply IH].
Qed.
End Run.

(** ** No child of the evaluator returns *)

(** Induction on command trees, through the pointers to the children. *)
Lemma command_ptr_ind (P : command_t -> Prop) :
  (forall o s c1 c2, on_ptr P c1 -> on_ptr P c2 -> P (mk_command o s c1 c2)) ->
  forall c, P c.
Proof.
  intros H.
  exact (fix IH (c : command_t) : P c :=
           match c with
           | mk_command o s c1 c2 =>
               H o s c1 c2
                 (match c1 as x return on_ptr P x with
                  | Some c' => IH c'
                  | None => I
                  end)
                 (match c2 as x return on_ptr P x with
                  | Some c' => IH c'
                  | None => I
                  end)
           end).
Qed.

Ltac tidy_step :=
  match goal with
  | |- True => exact I
  | |- _ /\ _ => split
  | |- forall _, _ => intro
  | |- tidy (bind _ _) => apply tidy_bind
  | |- tidy (if ?b then _ else _) => destruct b
  | |- tidy (match ?x with _ => _ end) => destruct x
  | |- tidy (let '(_, _) := ?x in _) => destruct x
  | |- tidy _ => progress simpl
  end.

Section Tidy.
Context {K : constants}.

Lemma shell_cd_tidy dir : tidy (shell_cd dir).
Proof. unfold shell_cd, chdir, getcwd, call. repeat tidy_step. Qed.

Lemma redirect_input_tidy s : tidy (redirect_input s).
Proof. unfold redirect_input, open, dup2, close, call. repeat tidy_step. Qed.

Lemma redirect_output_tidy s : tidy (redirect_output s).
Proof.
  unfold redirect_output, open, dup2, close, call.
  destruct (out s), (err s); repeat tidy_step.
Qed.

Lemma file_operations_tidy s : tidy (file_operations s).
Proof.
  apply tidy_bind; [apply redirect_input_tidy |].
  intros _. apply redirect_output_tidy.
Qed.

Lemma parse_simple_cd_case_tidy com s : tidy (parse_simple_cd_case com s).
Proof.
  unfold parse_simple_cd_case, fcntl_F_DUPFD, dup2, call. simpl. intros out err.
  apply tidy_bind; [apply file_operations_tidy |]. intros _. simpl. intros r.
  destruct (r =? -1); [exact I |]. simpl. intros r'.
  destruct (r' =? -1); [exact I |].
  apply tidy_bind; [apply shell_cd_tidy | by intros []].
Qed.

Lemma parse_simple_pwd_case_tidy com s : tidy (parse_simple_pwd_case com s).
Proof.
  unfold parse_simple_pwd_case, fcntl_F_DUPFD, dup2, getcwd, dprintf, call.
  simpl. intros out err.
  apply tidy_bind; [apply file_operations_tidy |]. intros _.
  repeat tidy_step.
Qed.

Lemma parse_simple_external_tidy com s : tidy (parse_simple_external com s).
Proof.
  unfold parse_simple_external, fork, execvp, waitpid, dprintf, call. simpl.
  split.
  - apply exits_bind_r. intros _. simpl. done.
  - intros pid. destruct (pid =? -1); [exact I |].
    destruct (pid =? 0); [| repeat tidy_step].
    apply tidy_bind; [apply file_operations_tidy |]. intros _. simpl. done.
Qed.

Lemma parse_simple_tidy s level father : tidy (parse_simple s level father).
Proof.
  unfold parse_simple. destruct s as [s |]; [| exact I].
  destruct (verb s) as [v |]; [| exact I]. simpl.
  destruct (String.eqb (w_text v) "cd"); [apply parse_simple_cd_case_tidy |].
  destruct (String.eqb (w_text v) "exit" || String.eqb (w_text v) "quit");
    [exact I |].
  destruct (String.eqb (w_text v) "pwd"); [apply parse_simple_pwd_case_tidy |].
  destruct (strchr (w_text v) "="); [by unfold putenv, call |].
  apply parse_simple_external_tidy.
Qed.

Section Operators.
Variable rec : option command_t -> Z -> option command_t -> prog Z.
Variables c1 c2 : option command_t.
Hypothesis rec_tidy1 : forall level father, tidy (rec c1 level father).
Hypothesis rec_tidy2 : forall level father, tidy (rec c2 level father).

Lemma run_in_parallel_tidy level father :
  tidy (run_in_parallel rec c1 c2 level father).
Proof.
  unfold run_in_parallel, fork, waitpid, call. simpl. split.
  - apply exits_bind_l, exits_bind_r. done.
  - intros pid1. destruct (pid1 =? -1); [exact I |].
    apply tidy_bind.
    { destruct (pid1 =? 0); [| exact I]. by apply tidy_bind. }
    intros _. simpl. split.
    + apply exits_bind_l, exits_bind_r. done.
    + intros pid2. destruct (pid2 =? -1); [exact I |].
      apply tidy_bind.
      { destruct (pid2 =? 0); [| exact I]. by apply tidy_bind. }
      intros _. repeat tidy_step.
Qed.

Lemma run_on_pipe_tidy level father :
  tidy (run_on_pipe rec c1 c2 level father).
Proof.
  unfold run_on_pipe, pipe, fork, close, dup2, waitpid, call. simpl.
  intros [r [rd wr]]. destruct (r =? -1); [exact I |]. simpl. split.
  - intros _ r'. apply exits_bind_l.
    destruct (r' =? -1); [exact I |]. by apply exits_bind_r.
  - intros pid1. apply tidy_bind.
    { destruct (pid1 =? 0); [| exact I]. simpl. intros _ r'.
      destruct (r' =? -1); [exact I |]. by apply tidy_bind. }
    intros _. simpl. split.
    + intros _ r'. apply exits_bind_l.
      destruct (r' =? -1); [exact I |]. by apply exits_bind_r.
    + intros pid2. apply tidy_bind.
      { destruct (pid2 =? 0); [| exact I]. simpl. intros _ r'.
        destruct (r' =? -1); [exact I |]. by apply tidy_bind. }
      intros _. repeat tidy_step.
Qed.
End Operators.

Lemma parse_command_unfold c level father :
  parse_command c level father =
  match op c with
  | OP_NONE => parse_simple (scmd c) level (Some c)
  | OP_SEQUENTIAL =>
      do _ <- parse_command_ptr (cmd1 c) level (Some c);
      do _ <- parse_command_ptr (cmd2 c) level (Some c);
      Ret 0
  | OP_PARALLEL =>
      do _ <- run_in_parallel parse_command_ptr (cmd1 c) (cmd2 c) level (Some c);
      Ret 0
  | OP_CONDITIONAL_NZERO =>
      do ret1 <- parse_command_ptr (cmd1 c) level (Some c);
      if negb (ret1 =? 0)
      then parse_command_ptr (cmd2 c) (level + 1) (Some c)
      else Ret ret1
  | OP_CONDITIONAL_ZERO =>
      do ret1 <- parse_command_ptr (cmd1 c) level (Some c);
      if ret1 =? 0
      then parse_command_ptr (cmd2 c) (level + 1) (Some c)
      else Ret ret1
  | OP_PIPE =>
      do ok <- run_on_pipe parse_command_ptr (cmd1 c) (cmd2 c) level (Some c);
      if negb ok then Ret 0 else Ret 1
  | OP_OTHER _ => Ret SHELL_EXIT
  end.
Proof. destruct c. reflexivity. Qed.

Lemma parse_command_tidy c : forall level father,
  tidy (parse_command c level father).
Proof.
  induction c as [o s c1 c2 IH1 IH2] using command_ptr_ind.
  assert (Hptr1 : forall l f, tidy (parse_command_ptr c1 l f)).
  { intros l f. destruct c1; [apply IH1 | exact I]. }
  assert (Hptr2 : forall l f, tidy (parse_command_ptr c2 l f)).
  { intros l f. destruct c2; [apply IH2 | exact I]. }
  intros level father. rewrite parse_command_unfold.
  destruct o; simpl op; simpl scmd; simpl cmd1; simpl cmd2; cbv beta iota.
  - apply parse_simple_tidy.
  - apply tidy_bind; [apply Hptr1 |]. intros _.
    apply tidy_bind; [apply Hptr2 | done].
  - apply tidy_bind; [by apply run_in_parallel_tidy | done].
  - apply tidy_bind; [apply Hptr1 |]. intros r.
    destruct (r =? 0); [apply Hptr2 | exact I].
  - apply tidy_bind; [apply Hptr1 |]. intros r.
    destruct (negb (r =? 0)); [apply Hptr2 | exact I].
  - apply tidy_bind; [by apply run_on_pipe_tidy | by intros []].
  - exact I.
Qed.

Lemma parse_command_ptr_tidy c level father :
  tidy (parse_command_ptr c level father).
Proof. destruct c; [apply parse_command_tidy | exact I]. Qed.
End Tidy.

(** ** The calls *)

Section KernelSpecs.
Context (os : OS).

Lemma run_call {A R : Type} (c : syscall R) (f : R -> prog A) s :
  run os (bind (call c) f) s =
  let (r, s') := kernel os c s in run os (f r) s'.
Proof. reflexivity. Qed.

Lemma run_fork {A : Type} (f : Z -> prog A) s :
  run os (bind fork f) s =
  if os_fork os s
  then run os (f (Z.pos (p_next_pid s)))
           (parent_of s (fate os (child_of s) (run os (f 0) (child_of s))))
  else run os (f (-1)) (log (EFork (-1)) s).
Proof. reflexivity. Qed.

Lemma run_Call {A R : Type} (c : syscall R) (k : R -> prog A) s :
  run os (Call c k) s = let (r, s') := kernel os c s in run os (k r) s'.
Proof. reflexivity. Qed.

(** [open]: either it fails and the descriptors stay as they are, or it
    puts a new open file on a descriptor that was free. *)
Lemma open_spec p flags mode s fd s' :
  kernel os (sys_open (Some p) flags mode) s = (fd, s') ->
  p_trace s' = p_trace s ++ [EOpen (Some p) flags fd]
  /\ ((fd = -1 /\ p_fds s' = p_fds s)
      \/ (0 <= fd /\ p_fds s !! fd = None
          /\ p_fds s' = <[fd := mk_ofd (List.length (p_trace s)) (Path p flags)]>
                          (p_fds s))).
Proof.
  simpl. destruct (os_fails os s _); intros [= <- <-]; simpl.
  - split; [done | by left].
  - split; [done | right]. split; [apply alloc_fd_ge |].
    split; [apply alloc_fd_free | done].
Qed.

Lemma open_null_spec flags mode s fd s' :
  kernel os (sys_open None flags mode) s = (fd, s') ->
  p_trace s' = p_trace s ++ [EOpen None flags fd]
  /\ fd = -1 /\ p_fds s' = p_fds s.
Proof. simpl. by intros [= <- <-]. Qed.

(** [dup2]: either it fails and the descriptors stay as they are, or the
    new descriptor is one more name for the open file of the old one. *)
Lemma dup2_spec oldfd newfd s r s' :
  kernel os (sys_dup2 oldfd newfd) s = (r, s') ->
  p_trace s' = p_trace s ++ [EDup2 oldfd newfd r]
  /\ ((r = -1 /\ p_fds s' = p_fds s)
      \/ (r = newfd /\ 0 <= newfd
          /\ exists d, p_fds s !! oldfd = Some d
                       /\ p_fds s' = <[newfd := d]> (p_fds s))).
Proof.
  simpl. destruct (p_fds s !! oldfd) as [d |] eqn:E.
  - destruct (newfd <? 0) eqn:Hneg; simpl.
    + intros [= <- <-]. split; [done | by left].
    + destruct (os_fails os s _); intros [= <- <-]; simpl.
      * split; [done | by left].
      * split; [done | right]. split; [done |]. split; [lia | by eauto].
  - intros [= <- <-]. split; [done | by left].
Qed.

Lemma dup2_keeps oldfd newfd s r s' fd :
  kernel os (sys_dup2 oldfd newfd) s = (r, s') ->
  is_Some (p_fds s !! fd) -> is_Some (p_fds s' !! fd).
Proof.
  intros H Hfd. apply dup2_spec in H as [_ [[_ ->] | (_ & _ & d & _ & ->)]];
    [done |].
  rewrite lookup_insert. by case_decide.
Qed.

(** [close] of an open descriptor. *)
Lemma close_spec fd s :
  is_Some (p_fds s !! fd) ->
  kernel os (sys_close fd) s
  = (0, log (EClose fd 0) (set_fds (delete fd (p_fds s)) s)).
Proof. intros [d E]. simpl. by rewrite E. Qed.
End KernelSpecs.

(** ** The operator dispatcher *)

Section Dispatcher.
Context {K : constants} (os : OS).

Lemma run_parse_command_bind {B : Type} c level father
    (f : Z -> prog B) s :
  run os (bind (parse_command_ptr c level father) f) s =
  bind_outcome (run os (parse_command_ptr c level father) s)
               (fun a => run os (f a)).
Proof. apply run_bind, parse_command_ptr_tidy. Qed.

(** X19: sequential composition: the left command, then the right one from
    the state the left one left, and 0 whatever they returned. *)
Lemma sequential_run c level father s :
  op c = OP_SEQUENTIAL ->
  run os (parse_command c level father) s =
  bind_outcome (run os (parse_command_ptr (cmd1 c) level (Some c)) s)
    (fun _ s1 =>
       bind_outcome (run os (parse_command_ptr (cmd2 c) level (Some c)) s1)
         (fun _ s2 => (Returned 0, s2))).
Proof.
  intros Hop. rewrite parse_command_unfold, Hop, run_parse_command_bind.
  destruct (run os (parse_command_ptr (cmd1 c) level (Some c)) s)
    as [[r1 | t1] s1]; simpl; [| done].
  by rewrite run_parse_command_bind.
Qed.

(** A sequence returns 0 whenever it returns. *)
Lemma sequential_returns_zero c level father s r s' :
  op c = OP_SEQUENTIAL ->
  run os (parse_command c level father) s = (Returned r, s') -> r = 0.
Proof.
  intros Hop. rewrite parse_command_unfold, Hop.
  rewrite run_bind by apply parse_command_ptr_tidy.
  destruct (run os (parse_command_ptr _ _ _) s) as [[r1 | t] s1];
    cbn [bind_outcome]; [| congruence].
  rewrite run_bind by apply parse_command_ptr_tidy.
  destruct (run os (parse_command_ptr _ _ _) s1) as [[r2 | t] s2];
    cbn [bind_outcome run]; congruence.
Qed.
End Dispatcher.

(** C9: a leaf whose simple command is NULL, or whose verb is NULL, evaluates
    to the failure status -1 at once: the program is [Ret (-1)], it makes no
    call, spawns no process and leaves the process as it was. *)
Theorem C9_null_leaf {K : constants} (os : OS) c level father s :
  op c = OP_NONE ->
  scmd c = None \/ (exists sc, scmd c = Some sc /\ verb sc = None) ->
  parse_command c level father = Ret (-1)
  /\ run os (parse_command c level father) s = (Returned (-1), s).
Proof.
  intros Hop Hnull. rewrite parse_command_unfold, Hop.
  destruct Hnull as [-> | (sc & -> & Hverb)]; simpl; [done |].
  by rewrite Hverb.
Qed.

Lemma C9_null_leaf_witness :
  run os0 (@parse_command constants0 (mk_command OP_NONE None None None) 0 None)
      shell0 = (Returned (-1), shell0)
  /\ run os0 (@parse_command constants0
                (leaf (mk_simple_command None (word "x") None (word "f") None 0))
                0 None) shell0 = (Returned (-1), shell0).
Proof.
  split.
  - apply (@C9_null_leaf constants0 os0); [reflexivity | left; reflexivity].
  - apply (@C9_null_leaf constants0 os0); [reflexivity |].
    right. eexists. split; reflexivity.
Defined.

(** C10: a node whose operator tag is neither "none" nor one of the five
    operators evaluates to the sentinel [SHELL_EXIT], without any call. *)
Theorem C10_unknown_operator {K : constants} (os : OS) c level father s :
  op c <> OP_NONE ->
  op c <> OP_SEQUENTIAL -> op c <> OP_PARALLEL -> op c <> OP_PIPE ->
  op c <> OP_CONDITIONAL_NZERO -> op c <> OP_CONDITIONAL_ZERO ->
  parse_command c level father = Ret SHELL_EXIT
  /\ run os (parse_command c level father) s = (Returned SHELL_EXIT, s).
Proof.
  intros. rewrite parse_command_unfold. by destruct (op c).
Qed.

Lemma C10_unknown_operator_witness :
  run os0 (@parse_command constants0
             (node (OP_OTHER 6) (leaf (simple "true" None))
                   (leaf (simple "false" None))) 0 None) shell0
  = (Returned (-100), shell0).
Proof.
  apply (@C10_unknown_operator constants0 os0); discriminate.
Defined.

(** C4: a conditional node evaluates its left command A first.  For
    [A && B] ([OP_CONDITIONAL_ZERO]) B is evaluated, from the state A left,
    exactly when A returned 0, and the result is then B's; otherwise the
    result is A's status.  For [A || B] ([OP_CONDITIONAL_NZERO]) B is
    evaluated exactly when A returned a nonzero status, and the result is
    then B's; otherwise the result is A's status, 0. *)
Theorem C4_conditional {K : constants} (os : OS) c A B level father s :
  cmd1 c = Some A -> cmd2 c = Some B ->
  (op c = OP_CONDITIONAL_ZERO ->
   run os (parse_command c level father) s =
   match run os (parse_command A level (Some c)) s with
   | (Returned ret1, s1) =>
       if ret1 =? 0 then run os (parse_command B (level + 1) (Some c)) s1
       else (Returned ret1, s1)
   | (Terminated t, s1) => (Terminated t, s1)
   end)
  /\ (op c = OP_CONDITIONAL_NZERO ->
      run os (parse_command c level father) s =
      match run os (parse_command A level (Some c)) s with
      | (Returned ret1, s1) =>
          if ret1 =? 0 then (Returned ret1, s1)
          else run os (parse_command B (level + 1) (Some c)) s1
      | (Terminated t, s1) => (Terminated t, s1)
      end).
Proof.
  intros HA HB.
  split; intros Hop; rewrite parse_command_unfold, Hop, run_parse_command_bind,
    HA, HB; simpl;
    destruct (run os (parse_command A level (Some c)) s) as [[r | t] s1];
    simpl; try done; by destruct (r =? 0).
Qed.

Lemma C4_conditional_witness :
  let A := leaf (simple "false" None) in
  let B := leaf (simple "true" None) in
  fst (run os0 (@parse_command constants0 (node OP_CONDITIONAL_ZERO A B) 0 None)
           shell0) = Returned 1
  /\ fst (run os0 (@parse_command constants0 (node OP_CONDITIONAL_NZERO A B) 0 None)
              shell0) = Returned 0.
Proof.
  intros A B.
  destruct (@C4_conditional constants0 os0 (node OP_CONDITIONAL_ZERO A B) A B
              0 None shell0 eq_refl eq_refl) as [Hz _].
  destruct (@C4_conditional constants0 os0 (node OP_CONDITIONAL_NZERO A B) A B
              0 None shell0 eq_refl eq_refl) as [_ Hnz].
  split.
  - rewrite (Hz eq_refl). reflexivity.
  - rewrite (Hnz eq_refl). reflexivity.
Defined.

(** C1, on the input [true ; false]: the sequence evaluates [true], then
    [false] from the state [true] left, each once; [false] returns 1, yet the
    sequence returns 0 and not that status. *)
Theorem C1_sequential_status_lost :
  let A := leaf (simple "true" None) in
  let B := leaf (simple "false" None) in
  let c := node OP_SEQUENTIAL A B in
  exists s1 s2,
    run os0 (@parse_command constants0 A 0 (Some c)) shell0 = (Returned 0, s1)
    /\ run os0 (@parse_command constants0 B 0 (Some c)) s1 = (Returned 1, s2)
    /\ run os0 (@parse_command constants0 c 0 None) shell0 = (Returned 0, s2).
Proof.
  intros A B c. do 2 eexists. split; [reflexivity |]. split; reflexivity.
Qed.

(** ** Parallel nodes *)

Section Parallel.
Context {K : constants} (os : OS).

(** A parallel node returns 0 whenever it returns. *)
Lemma parallel_returns_zero c level father s r s' :
  op c = OP_PARALLEL ->
  run os (parse_command c level father) s = (Returned r, s') -> r = 0.
Proof.
  intros Hop. rewrite parse_command_unfold, Hop.
  rewrite run_bind
    by (apply run_in_parallel_tidy; intros; apply parse_command_ptr_tidy).
  destruct (run os (run_in_parallel _ _ _ _ _) s) as [[ok | t] s1];
    cbn [bind_outcome run]; congruence.
Qed.

(** When the second fork fails, [run_in_parallel] returns at once: the
    first child stays among the children not waited for. *)
Lemma run_in_parallel_second_fork_fails rec c1 c2 level father s :
  os_fork os s = true ->
  (forall t, os_fork os (parent_of s t) = false) ->
  exists t,
    run os (run_in_parallel rec c1 c2 level father) s
    = (Returned false, log (EFork (-1)) (parent_of s t)).
Proof.
  intros H1 H2. unfold run_in_parallel. rewrite run_fork, H1.
  eexists. cbn [Z.eqb bind]. rewrite run_fork, H2. reflexivity.
Qed.
End Parallel.

(** C3, on the input [false & true]: the left command returns 1 in its
    child and [run_in_parallel] computes [false], yet the parallel node
    returns 0. *)
Theorem C3_parallel_status_lost :
  let A := leaf (simple "false" None) in
  let B := leaf (simple "true" None) in
  let c := node OP_PARALLEL A B in
  fst (run os0 (@parse_command constants0 A 1 (Some c)) (child_of shell0))
    = Returned 1
  /\ fst (run os0 (run_in_parallel (@parse_command_ptr constants0)
                     (Some A) (Some B) 0 (Some c)) shell0) = Returned false
  /\ fst (run os0 (@parse_command constants0 c 0 None) shell0) = Returned 0.
Proof. intros A B c. split; [reflexivity |]. split; reflexivity. Qed.

(** C6, on the input [true & true] when the second fork fails: the
    spawning process forks once, fails to fork again and returns without
    any [waitpid]; the first child stays among the children not waited
    for. *)
Theorem C6_first_child_not_waited :
  let A := leaf (simple "true" None) in
  let B := leaf (simple "true" None) in
  let c := node OP_PARALLEL A B in
  let s' := snd (run os_one_child (@parse_command constants0 c 0 None) shell0) in
  p_trace s' = [EFork 100; EFork (-1)]
  /\ p_children s' = [(100, Exited 0)].
Proof. intros A B c s'. split; reflexivity. Qed.

(** ** Pipes *)

Section Pipe.
Context {K : constants} (os : OS).





Lemma close_children fd s :
  p_children (snd (kernel os (sys_close fd) s)) = p_children s.
Proof. simpl. by destruct (p_fds s !! fd). Qed.

Lemma waitpid_spec pid s p t rest :
  os_fails os s (sys_waitpid pid 0) = false ->
  reap pid (p_children s) = Some (p, t, rest) ->
  kernel os (sys_waitpid pid 0) s
  = ((p, wstatus t), log (EWaitpid pid p (wstatus t)) (set_children rest s)).
Proof. intros Hok E. simpl. by rewrite Hok, E. Qed.


Lemma reap_first pid t l : pid <> -1 -> reap pid ((pid, t) :: l) = Some (pid, t, l).
Proof. intros H. simpl. by rewrite Z.eqb_refl, orb_true_r. Qed.

Lemma reap_second pid q t u l :
  pid <> -1 -> pid <> q ->
  reap pid ((q, u) :: (pid, t) :: l) = Some (pid, t, (q, u) :: l).
Proof.
  intros H1 H2. cbn [reap].
  replace (pid =? -1) with false by lia.
  replace (pid =? q) with false by lia.
  rewrite Z.eqb_refl. reflexivity.
Qed.

End Pipe.

(** X18: when the pipe cannot be created, the node returns 0. *)
Lemma pipe_failure_returns_zero {K : constants} (os : OS) c level father s :
  op c = OP_PIPE -> os_fails os s sys_pipe = true ->
  run os (parse_command c level father) s
  = (Returned 0, log (EPipe (-1) 0 0) s).
Proof.
  intros Hop Hfail. rewrite parse_command_unfold, Hop.
  unfold run_on_pipe, pipe. cbn [bind call]. rewrite run_Call.
  cbn [kernel]. rewrite Hfail. reflexivity.
Qed.



(** C2, on the input [true | false] when a step around the pipe fails.
    When nothing fails the node returns 1, the right-hand command having
    failed.  When the pipe cannot be created, [run_on_pipe] computes [false]
    and creates no child, so that no right-hand command ends with success,
    yet the node returns 0.  When the waits are interrupted, both children
    are created, the right-hand command returns a failure status in its
    child, [run_on_pipe] computes [false] after the first wait and leaves
    both children not waited for, and the node returns 0 again. *)
Theorem C2_pipe_failure_returns_success :
  let A := leaf (simple "true" None) in
  let B := leaf (simple "false" None) in
  let c := node OP_PIPE A B in
  let on_pipe os :=
    run os (run_on_pipe (@parse_command_ptr constants0) (Some A) (Some B) 0
              (Some c)) shell0 in
  let node_run os := run os (@parse_command constants0 c 0 None) shell0 in
  fst (node_run os0) = Returned 1
  /\ (fst (on_pipe os_no_pipe) = Returned false
      /\ node_run os_no_pipe = (Returned 0, log (EPipe (-1) 0 0) shell0))
  /\ (fst (run os_no_wait (@parse_command constants0 B 0 (Some c))
              (pipe_right os_no_wait shell0)) = Returned (-1)
      /\ fst (on_pipe os_no_wait) = Returned false
      /\ fst (node_run os_no_wait) = Returned 0
      /\ p_trace (snd (node_run os_no_wait))
         = [EPipe 0 3 4; EFork 100; EFork 101; EClose 3 0; EClose 4 0;
            EWaitpid 100 (-1) 0]
      /\ p_children (snd (node_run os_no_wait))
         = [(101, Exited 0); (100, Exited 0)]).
Proof.
  intros A B c on_pipe node_run. subst on_pipe node_run.
  repeat split; vm_compute; reflexivity.
Qed.

(** ** The built-in [cd] *)

(** C7: the [cd] built-in.  Without an argument it returns success and
    does nothing.  With an absolute path it is one [chdir] on that path.  With
    a relative path, once [getcwd] gave the working directory and the
    concatenation fits, it is one [chdir] on the working directory, a slash
    and the path.  When the concatenation with its terminator does not fit
    in [PATH_MAX] it returns failure and has only asked for the working
    directory.  When there is no directory at the path handed to [chdir],
    it returns failure and the working directory is unchanged. *)
Theorem C7_shell_cd {K : constants} (os : OS) (s : proc) (d : word_t) :
  let next_dir := w_text d in
  let cwd := p_cwd s in
  let r := run os (shell_cd (Some d)) s in
  run os (shell_cd None) s = (Returned true, s)
  /\ (starts_with_slash next_dir = true ->
      r = let (x, s') := kernel os (sys_chdir next_dir) s in
          (Returned (negb (x =? -1)), s'))
  /\ (starts_with_slash next_dir = false ->
      fst (kernel os (sys_getcwd PATH_MAX) s) = Some cwd ->
      strlen cwd + strlen next_dir + 1 < PATH_MAX ->
      r = let (x, s') :=
            kernel os (sys_chdir (String.append cwd (String.append "/" next_dir)))
                   (log (EGetcwd (Some cwd)) s) in
          (Returned (negb (x =? -1)), s'))
  /\ (starts_with_slash next_dir = false ->
      PATH_MAX <= strlen cwd + strlen next_dir + 1 ->
      exists g, r = (Returned false, log (EGetcwd g) s))
  /\ ((forall s', os_chdir os s' (cd_target s next_dir) = None) ->
      fst r = Returned false /\ p_cwd (snd r) = cwd).
Proof.
  intros next_dir cwd r. subst r. unfold cd_target. fold next_dir cwd.
  unfold shell_cd. simpl get_word. fold next_dir.
  split; [reflexivity |].
  destruct (starts_with_slash next_dir) eqn:Habs.
  - split; [| split; [discriminate | split; [discriminate |]]].
    + intros _. simpl. by destruct (os_chdir os s next_dir).
    + intros Hno. simpl. by rewrite Hno.
  - split; [discriminate |]. simpl.
    destruct (os_fails os s (sys_getcwd PATH_MAX)
              || (PATH_MAX <? Z.of_nat (String.length (p_cwd s)) + 1)) eqn:Hg;
      simpl.
    + split; [discriminate |]. split; [by eauto | done].
    + fold cwd. fold (strlen cwd).
      destruct (strlen cwd + strlen next_dir + 1 >=? PATH_MAX) eqn:Hlen.
      * split; [intros _ _ Hlt; lia |]. split; [by eauto | done].
      * split; [| split].
        -- intros _ _ _. simpl. by destruct (os_chdir os _ _).
        -- intros _ Hle. lia.
        -- intros Hno. simpl. by rewrite Hno.
Qed.

Lemma C7_shell_cd_witness :
  run os0 (@shell_cd constants0 (word "sub")) shell0
  = (Returned true,
     log (EChdir "/a/b/sub" 0) (set_cwd "/a/b/sub" (log (EGetcwd (Some "/a/b")) shell0)))
  /\ run os0 (@shell_cd constants0 (word "/tmp")) shell0
     = (Returned true, log (EChdir "/tmp" 0) (set_cwd "/tmp" shell0))
  /\ (exists g, run os0 (@shell_cd constants0 (word "a/very/long/name")) shell0
                = (Returned false, log (EGetcwd g) shell0))
  /\ (fst (run os0 (@shell_cd constants0 (word "nowhere")) shell0) = Returned false
      /\ p_cwd (snd (run os0 (@shell_cd constants0 (word "nowhere")) shell0)) = "/a/b").
Proof.
  split; [| split; [| split]].
  - destruct (@C7_shell_cd constants0 os0 shell0 (mk_word "sub" None))
      as (_ & _ & H & _).
    apply H; [reflexivity | reflexivity | vm_compute; reflexivity].
  - destruct (@C7_shell_cd constants0 os0 shell0 (mk_word "/tmp" None))
      as (_ & H & _).
    apply H. reflexivity.
  - destruct (@C7_shell_cd constants0 os0 shell0 (mk_word "a/very/long/name" None))
      as (_ & _ & _ & H & _).
    apply H; [reflexivity | vm_compute; discriminate].
  - destruct (@C7_shell_cd constants0 os0 shell0 (mk_word "nowhere" None))
      as (_ & _ & _ & _ & H).
    apply H. intros s'. reflexivity.
Defined.

(** ** Redirections *)

Section Redirections.
Context {K : constants} (os : OS).

Lemma redirect_input_fails sc w s :
  in_ sc = Some w ->
  (forall s', os_fails os s' (sys_open (Some (w_text w)) O_RDONLY 0) = true)
  \/ (forall s' fd, os_fails os s' (sys_dup2 fd STDIN_FILENO) = true) ->
  fst (run os (redirect_input sc) s) = Terminated (Exited 1).
Proof.
  intros Hin Hfail. unfold redirect_input. rewrite Hin. simpl.
  destruct (os_fails os s (sys_open (Some (w_text w)) O_RDONLY 0)) eqn:Ho;
    simpl; [done |].
  destruct Hfail as [Hopen | Hdup]; [by rewrite Hopen in Ho |].
  destruct (alloc_fd (p_fds s) 0 =? -1); simpl; [done |].
  rewrite lookup_insert_eq. simpl. rewrite Hdup.
  simpl. done.
Qed.

Lemma file_operations_fails sc w s :
  in_ sc = Some w ->
  (forall s', os_fails os s' (sys_open (Some (w_text w)) O_RDONLY 0) = true)
  \/ (forall s' fd, os_fails os s' (sys_dup2 fd STDIN_FILENO) = true) ->
  exists s', run os (file_operations sc) s = (Terminated (Exited 1), s').
Proof.
  intros Hin Hfail. unfold file_operations.
  rewrite run_bind by apply redirect_input_tidy.
  pose proof (redirect_input_fails sc w s Hin Hfail) as H.
  destruct (run os (redirect_input sc) s) as [o s']. simpl in H. subst o.
  by exists s'.
Qed.
End Redirections.

(** C5, as amended: when the input target cannot be opened, or cannot be
    duplicated onto standard input, [file_operations] ends the process that
    called it by [exit(1)]; for the built-ins [cd] and [pwd] that process is
    the shell itself, which returns no status. *)
Theorem C5_input_redirection_failure {K : constants} (os : OS) sc w level
    father s :
  in_ sc = Some w ->
  (forall s', os_fails os s' (sys_open (Some (w_text w)) O_RDONLY 0) = true)
  \/ (forall s' fd, os_fails os s' (sys_dup2 fd STDIN_FILENO) = true) ->
  (forall s', fst (run os (file_operations sc) s') = Terminated (Exited 1))
  /\ (get_word (verb sc) = Some "cd" \/ get_word (verb sc) = Some "pwd" ->
      fst (run os (parse_simple (Some sc) level father) s)
      = Terminated (Exited 1)).
Proof.
  intros Hin Hfail. split.
  - intros s'. destruct (file_operations_fails os sc w s' Hin Hfail) as [s'' E].
    by rewrite E.
  - intros Hverb. unfold parse_simple.
    destruct (verb sc) as [v |] eqn:Hv; [| by destruct Hverb].
    simpl in *.
    destruct Hverb as [E | E]; injection E as ->;
      cbn -[run parse_simple_cd_case parse_simple_pwd_case].
    + unfold parse_simple_cd_case, fcntl_F_DUPFD.
      rewrite run_call. destruct (kernel os _ s) as [o1 s1].
      rewrite run_call. destruct (kernel os _ s1) as [o2 s2].
      rewrite run_bind by apply file_operations_tidy.
      destruct (file_operations_fails os sc w s2 Hin Hfail) as [s3 ->].
      reflexivity.
    + unfold parse_simple_pwd_case, fcntl_F_DUPFD.
      rewrite run_call. destruct (kernel os _ s) as [o1 s1].
      rewrite run_call. destruct (kernel os _ s1) as [o2 s2].
      rewrite run_bind by apply file_operations_tidy.
      destruct (file_operations_fails os sc w s2 Hin Hfail) as [s3 ->].
      reflexivity.
Qed.

Lemma C5_input_redirection_failure_witness :
  fst (run os0 (@parse_simple constants0 (scmd cd_from_missing) 0 None) shell0)
  = Terminated (Exited 1).
Proof.
  apply (@C5_input_redirection_failure constants0 os0 _ (mk_word "/missing" None));
    [reflexivity | left; intros s'; reflexivity | left; reflexivity].
Defined.

(** C5 as the specification words it fails on [cd /tmp < /missing]: the
    built-in reports no failure status, the shell is gone. *)
Lemma C5_shell_is_aborted :
  ~ @builtin_reports_failure constants0 os0 cd_from_missing shell0.
Proof.
  intros (r & s' & _ & H). vm_compute in H. discriminate H.
Qed.

Section Aliasing.
Context {K : constants} (os : OS).

(** The second block of [file_operations] when both targets are set:
    what it does with the descriptors, whichever mode it opens with. *)
Lemma redirect_output_both sc wo we s :
  out sc = Some wo -> err sc = Some we ->
  run os (redirect_output sc) s =
  let flags := out_flags sc in
  let (out_fd, s1) := kernel os (sys_open (Some (w_text wo)) flags 420) s in
  let (_, s2) := kernel os (sys_dup2 out_fd STDOUT_FILENO) s1 in
  let (err_fd, s3) :=
    if String.eqb (w_text wo) (w_text we) then (out_fd, s2)
    else kernel os (sys_open (Some (w_text we)) flags 420) s2 in
  let (_, s4) := kernel os (sys_dup2 err_fd STDERR_FILENO) s3 in
  let (_, s5) :=
    if negb (out_fd =? -1) && negb (out_fd =? err_fd)
    then kernel os (sys_close out_fd) s4 else (0, s4) in
  let (_, s6) :=
    if negb (err_fd =? -1) then kernel os (sys_close err_fd) s5
    else (0, s5) in
  (Returned tt, s6).
Proof.
  intros Hout Herr. unfold redirect_output, out_flags. rewrite Hout, Herr.
  cbn [get_word].
  destruct (negb (Z.land (io_flags sc) (Z.lor IO_OUT_APPEND IO_ERR_APPEND) =? 0));
    unfold open, dup2, close, call;
    repeat (cbn [bind Pos.eqb Z.eqb]; cbv zeta; rewrite ?run_Call;
            try reflexivity;
            match goal with
            | |- context [if ?b then _ else _] => destruct b
            | |- context [kernel os ?c ?s] =>
                destruct (kernel os c s) as [? ?]
            end).
Qed.

Lemma open_keeps p flags mode s fd s' x :
  kernel os (sys_open (Some p) flags mode) s = (fd, s') ->
  is_Some (p_fds s !! x) -> is_Some (p_fds s' !! x).
Proof.
  intros H Hx. apply open_spec in H as [_ [[_ ->] | (_ & _ & ->)]]; [done |].
  rewrite lookup_insert. by case_decide.
Qed.

Lemma open_opened p flags mode s fd s' :
  kernel os (sys_open (Some p) flags mode) s = (fd, s') ->
  fd <> -1 -> is_Some (p_fds s' !! fd).
Proof.
  intros H Hfd. apply open_spec in H as [_ [[? _] | (_ & _ & ->)]]; [done |].
  rewrite lookup_insert_eq. by eexists.
Qed.
End Aliasing.

(** C8: the output and error redirections of a leaf with both targets
    set, from the state [s1] in which the input redirection returned.  When
    the two targets are the same path, the path is opened once, the one
    descriptor is duplicated onto standard output and onto standard error,
    and it is closed once (not at all when the open failed); when the three
    calls succeeded on a process whose descriptors 1 and 2 were open, both
    name one open file description and the temporary descriptor is gone.
    When the targets are different paths, each is opened on its own, and
    two descriptors that were opened are different and each closed once. *)
Theorem C8_redirection_aliasing {K : constants} (os : OS) sc wo we s s1 :
  out sc = Some wo -> err sc = Some we ->
  run os (redirect_input sc) s = (Returned tt, s1) ->
  let po := w_text wo in
  let pe := w_text we in
  let flags := out_flags sc in
  let s' := snd (run os (file_operations sc) s) in
  (po = pe ->
   exists fd r1 r2,
     p_trace s' = p_trace s1
                  ++ [EOpen (Some po) flags fd;
                      EDup2 fd STDOUT_FILENO r1; EDup2 fd STDERR_FILENO r2]
                  ++ closes fd
     /\ (fd <> -1 -> r1 <> -1 -> r2 <> -1 ->
         is_Some (p_fds s1 !! STDOUT_FILENO) ->
         is_Some (p_fds s1 !! STDERR_FILENO) ->
         exists d, ofd_file d = Path po flags
                   /\ p_fds s' !! STDOUT_FILENO = Some d
                   /\ p_fds s' !! STDERR_FILENO = Some d
                   /\ p_fds s' !! fd = None))
  /\ (po <> pe ->
      exists fd1 fd2 r1 r2,
        p_trace s' = p_trace s1
                     ++ [EOpen (Some po) flags fd1; EDup2 fd1 STDOUT_FILENO r1;
                         EOpen (Some pe) flags fd2; EDup2 fd2 STDERR_FILENO r2]
                     ++ closes fd1 ++ closes fd2
        /\ (fd1 <> -1 -> fd2 <> -1 -> fd1 <> fd2)).
Proof.
  intros Hout Herr Hin po pe flags s'. subst s'.
  unfold file_operations. rewrite run_bind by apply redirect_input_tidy.
  rewrite Hin. cbn [bind_outcome].
  rewrite (redirect_output_both os sc wo we s1 Hout Herr). cbv zeta.
  fold po pe flags.
  destruct (kernel os (sys_open (Some po) flags 420) s1) as [fd1 s2] eqn:E1.
  destruct (kernel os (sys_dup2 fd1 STDOUT_FILENO) s2) as [r1 s3] eqn:E2.
  pose proof (open_spec os _ _ _ _ _ _ E1) as [T1 F1].
  pose proof (dup2_spec os _ _ _ _ _ E2) as [T2 F2].
  split.
  - intros Heq. rewrite <- Heq, String.eqb_refl.
    destruct (kernel os (sys_dup2 fd1 STDERR_FILENO) s3) as [r2 s4] eqn:E3.
    pose proof (dup2_spec os _ _ _ _ _ E3) as [T3 F3].
    rewrite Z.eqb_refl, andb_false_r. exists fd1, r1, r2. unfold closes.
    destruct (fd1 =? -1) eqn:Hfd; cbn [negb snd].
    + split; [| intros; lia].
      rewrite T3, T2, T1, <- !app_assoc. cbn [app]. reflexivity.
    + rewrite close_spec.
      2:{ eapply dup2_keeps; [exact E3 |]. eapply dup2_keeps; [exact E2 |].
          eapply open_opened; [exact E1 | lia]. }
      cbn [snd log p_trace p_fds set_fds]. split.
      * rewrite T3, T2, T1, <- !app_assoc. cbn [app]. reflexivity.
      * intros _ Hr1 Hr2 [d1 H1] [d2 H2].
        destruct F1 as [[? _] | (_ & Hfree & Hs2)]; [lia |].
        destruct F2 as [[? _] | (_ & _ & d & Hd & Hs3)]; [done |].
        destruct F3 as [[? _] | (_ & _ & d' & Hd' & Hs4)]; [done |].
        assert (fd1 <> STDOUT_FILENO) by congruence.
        assert (fd1 <> STDERR_FILENO) by congruence.
        exists (mk_ofd (List.length (p_trace s1)) (Path po flags)).
        split; [reflexivity |].
        rewrite Hs4, Hs3, Hs2 in *. unfold STDOUT_FILENO, STDERR_FILENO in *.
        clear E1 E2 E3. by simplify_map_eq.
  - intros Hne. apply String.eqb_neq in Hne. rewrite Hne.
    destruct (kernel os (sys_open (Some pe) flags 420) s3) as [fd2 s4] eqn:E3.
    destruct (kernel os (sys_dup2 fd2 STDERR_FILENO) s4) as [r2 s5] eqn:E4.
    pose proof (open_spec os _ _ _ _ _ _ E3) as [T3 F3].
    pose proof (dup2_spec os _ _ _ _ _ E4) as [T4 _].
    exists fd1, fd2, r1, r2.
    assert (Hopen1 : fd1 <> -1 -> is_Some (p_fds s3 !! fd1)).
    { intros Hfd. eapply dup2_keeps; [exact E2 |].
      eapply open_opened; [exact E1 | done]. }
    assert (Hdiff : fd1 <> -1 -> fd1 <> fd2).
    { intros Hfd ->. destruct F3 as [[? _] | (_ & Hfree & _)]; [done |].
      destruct (Hopen1 Hfd) as [d Hd]. congruence. }
    split; [| by auto].
    unfold closes. destruct (fd1 =? -1) eqn:Hfd1; cbn [negb andb].
    + destruct (fd2 =? -1) eqn:Hfd2; cbn [negb snd].
      * rewrite T4, T3, T2, T1, <- !app_assoc. cbn [app]. reflexivity.
      * rewrite close_spec.
        -- cbn [snd log p_trace set_fds].
           rewrite T4, T3, T2, T1, <- !app_assoc. cbn [app]. reflexivity.
        -- eapply dup2_keeps; [exact E4 |].
           eapply open_opened; [exact E3 | lia].
    + assert (Hfd : fd1 <> -1) by lia.
      assert (Hne12 : (fd1 =? fd2) = false) by (apply Z.eqb_neq; auto).
      rewrite Hne12. cbn [negb].
      rewrite close_spec.
      2:{ eapply dup2_keeps; [exact E4 |]. eapply open_keeps; [exact E3 |].
          auto. }
      destruct (fd2 =? -1) eqn:Hfd2; cbn [negb snd].
      * cbn [log p_trace set_fds].
        rewrite T4, T3, T2, T1, <- !app_assoc. cbn [app]. reflexivity.
      * rewrite close_spec.
        -- cbn [snd log p_trace set_fds].
           rewrite T4, T3, T2, T1, <- !app_assoc. cbn [app]. reflexivity.
        -- cbn [log p_fds set_fds]. rewrite lookup_delete_ne by auto.
           eapply dup2_keeps; [exact E4 |].
           eapply open_opened; [exact E3 | lia].
Qed.

Lemma C8_redirection_aliasing_witness :
  (exists fd r1 r2,
     p_trace (snd (run os0 (@file_operations constants0 both_to_log) shell0))
     = [EOpen (Some "log") 577 fd; EDup2 fd 1 r1; EDup2 fd 2 r2] ++ closes fd)
  /\ (exists fd1 fd2 r1 r2,
        p_trace (snd (run os0 (@file_operations constants0 out_and_err) shell0))
        = [EOpen (Some "out") 1089 fd1; EDup2 fd1 1 r1;
           EOpen (Some "err") 1089 fd2; EDup2 fd2 2 r2]
          ++ closes fd1 ++ closes fd2).
Proof.
  split.
  - destruct (@C8_redirection_aliasing constants0 os0 both_to_log
                (mk_word "log" None) (mk_word "log" None) shell0 shell0
                eq_refl eq_refl eq_refl) as [H _].
    destruct (H eq_refl) as (fd & r1 & r2 & Ht & _). by exists fd, r1, r2.
  - destruct (@C8_redirection_aliasing constants0 os0 out_and_err
                (mk_word "out" None) (mk_word "err" None) shell0 shell0
                eq_refl eq_refl eq_refl) as [_ H].
    destruct (H ltac:(discriminate)) as (fd1 & fd2 & r1 & r2 & Ht & _).
    by exists fd1, fd2, r1, r2.
Defined.

(** * More properties *)

(** ** No child returns *)

Section Stray.
Context (os : OS) (f g : proc -> termination).

Lemma kernel_with_stray {R : Type} (c : syscall R) s :
  kernel (with_stray os f) c s = kernel (with_stray os g) c s.
Proof. by destruct c. Qed.

Lemma run_with_stray_exits {A : Type} (p : prog A) s :
  exits p -> run (with_stray os f) p s = run (with_stray os g) p s.
Proof.
  revert s. induction p as [a | R c k IH | k IH | file argv k IH | code |];
    intros s Hp; simpl in *; try done.
  - rewrite (kernel_with_stray c s).
    destruct (kernel (with_stray os g) c s) as [r s']. by apply IH.
  - destruct (os_fork os s); [| by apply IH].
    rewrite (IH 0 (child_of s) (Hp 0)).
    destruct (run_exits (with_stray os g) (k 0) (child_of s) (Hp 0))
      as (t & s' & ->).
    unfold fate. simpl. by apply IH.
  - destruct (os_exec os s file argv); [done | by apply IH].
Qed.

Lemma run_with_stray_tidy {A : Type} (p : prog A) s :
  tidy p -> run (with_stray os f) p s = run (with_stray os g) p s.
Proof.
  revert s. induction p as [a | R c k IH | k IH | file argv k IH | code |];
    intros s Hp; simpl in *; try done.
  - rewrite (kernel_with_stray c s).
    destruct (kernel (with_stray os g) c s) as [r s']. by apply IH.
  - destruct Hp as [He Ht]. destruct (os_fork os s); [| by apply IH].
    rewrite (run_with_stray_exits (k 0) (child_of s) He).
    destruct (run_exits (with_stray os g) (k 0) (child_of s) He)
      as (t & s' & ->).
    unfold fate. simpl. by apply IH.
  - destruct (os_exec os s file argv); [done | by apply IH].
Qed.
End Stray.

(** X1: no child of the evaluator ever returns from it: how a child that
    came back into the read loop would end has no influence on a run. *)
Theorem no_child_returns {K : constants} (os : OS) (f g : proc -> termination)
    c level father s :
  run (with_stray os f) (parse_command c level father) s
  = run (with_stray os g) (parse_command c level father) s.
Proof. apply run_with_stray_tidy, parse_command_tidy. Qed.

(** ** External commands *)

(** A child that exits is seen as exited, with the low byte of its code. *)
Lemma wstatus_exited code :
  WIFEXITED (wstatus (Exited code)) = true
  /\ WSTOPSIG (wstatus (Exited code)) = Z.land code 255.
Proof.
  unfold WIFEXITED, WSTOPSIG, WEXITSTATUS, WTERMSIG, wstatus. split.
  - apply Z.eqb_eq, Z.bits_inj'. intros n Hn.
    rewrite Z.land_spec, Z.bits_0.
    destruct (Z.ltb_spec n 8).
    + by rewrite Z.shiftl_spec_low.
    + replace 127 with (Z.ones 7) by reflexivity.
      rewrite Z.ones_spec_high by lia. apply andb_false_r.
  - rewrite Z.shiftr_land, Z.shiftr_shiftl_l by lia.
    change (Z.shiftr 65280 8) with 255. rewrite Z.sub_diag, Z.shiftl_0_r.
    by rewrite <- Z.land_assoc, Z.land_diag.
Qed.

Lemma wstatus_signaled sig :
  1 <= sig <= 127 -> WIFEXITED (wstatus (Signaled sig)) = false.
Proof.
  intros H. unfold WIFEXITED, WTERMSIG, wstatus.
  rewrite <- Z.land_assoc, Z.land_diag.
  replace 127 with (Z.ones 7) by reflexivity.
  rewrite Z.land_ones by lia. apply Z.eqb_neq.
  destruct (Z.eq_dec sig 127) as [-> | Hne]; [done |].
  rewrite Z.mod_small by (change (2 ^ 7) with 128; lia). lia.
Qed.

Section External.
Context {K : constants} (os : OS).

(** An external command whose child could be created and waited for: the
    parent waits for that child and decodes how it ended. *)
Lemma external_run com sc s :
  os_fork os s = true ->
  os_kill os (child_of s) = None ->
  (forall s', os_fails os s' (sys_waitpid (Z.pos (p_next_pid s)) 0) = false) ->
  let t := external_child os com sc s in
  let pid := Z.pos (p_next_pid s) in
  run os (parse_simple_external com sc) s
  = (Returned (decode t),
     log (EWaitpid pid pid (wstatus t))
         (set_children (p_children s) (parent_of s t))).
Proof.
  intros Hfork Hkill Hwait t pid. subst pid.
  unfold parse_simple_external. rewrite run_fork, Hfork.
  assert (Hfate : forall (k : unit -> prog Z),
             (forall u, k u = match get_argv sc with
                              | Some args =>
                                  do r <- execvp com args;
                                  if r =? -1
                                  then do _ <- dprintf STDERR_FILENO
                                         (String.append "Execution failed for '"
                                            (String.append com
                                               (String.append "'" newline)));
                                       Exit EXIT_FAILURE
                                  else Ret 0
                              | None => Exit EXIT_FAILURE
                              end) ->
             fate os (child_of s)
                  (run os (bind (file_operations sc) k) (child_of s)) = t).
  { intros k Hk. unfold fate. rewrite Hkill.
    rewrite run_bind by apply file_operations_tidy.
    subst t. unfold external_child.
    destruct (run os (file_operations sc) (child_of s)) as [[[] | t'] s1];
      cbn [bind_outcome]; [| done].
    rewrite Hk. destruct (get_argv sc) as [argv |]; [| done].
    unfold execvp. cbn [bind run].
    destruct (os_exec os s1 com argv) as [t' |]; [done |].
    cbn [Z.eqb Pos.eqb]. unfold dprintf. rewrite run_call.
    by destruct (kernel os _ _). }
  cbn [Z.eqb].
  match goal with
  | |- context [fate os _ (run os (bind (file_operations sc) ?k) _)] =>
      rewrite (Hfate k) by reflexivity
  end.
  unfold waitpid. rewrite run_call.
  rewrite (waitpid_spec os (Z.pos (p_next_pid s)) (parent_of s t)
             (Z.pos (p_next_pid s)) t (p_children s));
    [| apply Hwait | by apply reap_first].
  cbn [Z.eqb run]. unfold decode. by destruct (WIFEXITED (wstatus t)).
Qed.
End External.

(** X2: an external command whose program exits with [code] has the status
    [code] modulo 256; the child has been waited for, and the shell has made
    two calls, the fork and the wait. *)
Theorem external_exit_code {K : constants} (os : OS) com sc argv s s1 code :
  os_fork os s = true ->
  os_kill os (child_of s) = None ->
  (forall s', os_fails os s' (sys_waitpid (Z.pos (p_next_pid s)) 0) = false) ->
  run os (file_operations sc) (child_of s) = (Returned tt, s1) ->
  get_argv sc = Some argv ->
  os_exec os s1 com argv = Some (Exited code) ->
  let r := run os (parse_simple_external com sc) s in
  let pid := Z.pos (p_next_pid s) in
  fst r = Returned (Z.land code 255)
  /\ p_children (snd r) = p_children s
  /\ p_trace (snd r)
     = p_trace s ++ [EFork pid; EWaitpid pid pid (wstatus (Exited code))].
Proof.
  intros Hfork Hkill Hwait Hfo Hargv Hexec r pid. subst r pid.
  rewrite (external_run os com sc s Hfork Hkill Hwait).
  unfold external_child. rewrite Hfo, Hargv, Hexec. cbn [fst snd].
  unfold decode. destruct (wstatus_exited code) as [-> ->].
  split; [done |]. split; [done |].
  cbn [log set_children parent_of p_trace]. by rewrite <- app_assoc.
Qed.

Lemma external_exit_code_witness :
  fst (run os0 (@parse_simple_external constants0 "false" (simple "false" None))
           shell0) = Returned 1.
Proof.
  eapply (@external_exit_code constants0 os0 "false" (simple "false" None)
            ["false"] shell0 _ 1);
    [reflexivity | reflexivity | intros s'; reflexivity
    | reflexivity | reflexivity | reflexivity].
Defined.

(** X3: an external command for which [execvp] finds no program has the
    status 1, and its child has been waited for. *)
Theorem external_not_found {K : constants} (os : OS) com sc argv s s1 :
  os_fork os s = true ->
  os_kill os (child_of s) = None ->
  (forall s', os_fails os s' (sys_waitpid (Z.pos (p_next_pid s)) 0) = false) ->
  run os (file_operations sc) (child_of s) = (Returned tt, s1) ->
  get_argv sc = Some argv ->
  os_exec os s1 com argv = None ->
  let r := run os (parse_simple_external com sc) s in
  fst r = Returned 1 /\ p_children (snd r) = p_children s.
Proof.
  intros Hfork Hkill Hwait Hfo Hargv Hexec r. subst r.
  rewrite (external_run os com sc s Hfork Hkill Hwait).
  unfold external_child. by rewrite Hfo, Hargv, Hexec.
Qed.

Lemma external_not_found_witness :
  fst (run os0 (@parse_simple_external constants0 "nosuch" (simple "nosuch" None))
           shell0) = Returned 1.
Proof.
  eapply (@external_not_found constants0 os0 "nosuch" (simple "nosuch" None)
            ["nosuch"] shell0 _);
    [reflexivity | reflexivity | intros s'; reflexivity
    | reflexivity | reflexivity | reflexivity].
Defined.

(** X4: an external command whose program is killed by a signal has the
    status -1, and its child has been waited for. *)
Theorem external_killed {K : constants} (os : OS) com sc argv s s1 sig :
  os_fork os s = true ->
  os_kill os (child_of s) = None ->
  (forall s', os_fails os s' (sys_waitpid (Z.pos (p_next_pid s)) 0) = false) ->
  run os (file_operations sc) (child_of s) = (Returned tt, s1) ->
  get_argv sc = Some argv ->
  os_exec os s1 com argv = Some (Signaled sig) ->
  1 <= sig <= 127 ->
  let r := run os (parse_simple_external com sc) s in
  fst r = Returned (-1) /\ p_children (snd r) = p_children s.
Proof.
  intros Hfork Hkill Hwait Hfo Hargv Hexec Hsig r. subst r.
  rewrite (external_run os com sc s Hfork Hkill Hwait).
  unfold external_child. rewrite Hfo, Hargv, Hexec. cbn [fst snd].
  unfold decode. by rewrite (wstatus_signaled sig Hsig).
Qed.

(** X5: an external command whose input target cannot be opened has the
    status 1: its child ends in [file_operations], and is waited for. *)
Theorem external_input_missing {K : constants} (os : OS) com sc w s :
  os_fork os s = true ->
  os_kill os (child_of s) = None ->
  (forall s', os_fails os s' (sys_waitpid (Z.pos (p_next_pid s)) 0) = false) ->
  in_ sc = Some w ->
  (forall s', os_fails os s' (sys_open (Some (w_text w)) O_RDONLY 0) = true) ->
  let r := run os (parse_simple_external com sc) s in
  fst r = Returned 1 /\ p_children (snd r) = p_children s.
Proof.
  intros Hfork Hkill Hwait Hin Hopen r. subst r.
  rewrite (external_run os com sc s Hfork Hkill Hwait).
  unfold external_child.
  destruct (file_operations_fails os sc w (child_of s) Hin (or_introl Hopen))
    as [s1 ->].
  done.
Qed.

Lemma external_input_missing_witness :
  fst (run os0 (@parse_simple_external constants0 "true"
                  (mk_simple_command (word "true") None (word "/missing")
                                     None None 0)) shell0) = Returned 1.
Proof.
  eapply (@external_input_missing constants0 os0 "true" _
            (mk_word "/missing" None) shell0);
    [reflexivity | reflexivity | intros s'; reflexivity
    | reflexivity | intros s'; reflexivity].
Defined.

(** ** Descriptors kept by the redirections *)

Section Keeps.
Context (os : OS).

(** An open descriptor stays what it is through an [open], and the
    descriptor [open] returns is another one. *)
Lemma open_keeps_val path flags mode s fd s' x d :
  kernel os (sys_open path flags mode) s = (fd, s') ->
  p_fds s !! x = Some d ->
  p_fds s' !! x = Some d /\ (fd = -1 \/ fd <> x).
Proof.
  intros E Hx. destruct path as [p |].
  - apply open_spec in E as [_ [[-> ->] | (_ & Hfree & ->)]]; [by auto |].
    assert (fd <> x) by congruence. by rewrite lookup_insert_ne; auto.
  - apply open_null_spec in E as (_ & -> & ->). by auto.
Qed.

Lemma dup2_keeps_val oldfd newfd s r s' x d :
  kernel os (sys_dup2 oldfd newfd) s = (r, s') ->
  x <> newfd -> p_fds s !! x = Some d -> p_fds s' !! x = Some d.
Proof.
  intros E Hne Hx.
  apply dup2_spec in E as [_ [[_ ->] | (_ & _ & d' & _ & ->)]]; [done |].
  by rewrite lookup_insert_ne.
Qed.

Lemma close_keeps_val fd s r s' x d :
  kernel os (sys_close fd) s = (r, s') ->
  x <> fd -> p_fds s !! x = Some d -> p_fds s' !! x = Some d.
Proof.
  simpl. intros E Hne Hx. destruct (p_fds s !! fd); injection E as <- <-;
    simpl; [| done]. by rewrite lookup_delete_ne.
Qed.

(** [fcntl(fd, F_DUPFD, fd)] that is not refused: a descriptor that was
    free, above [fd], now names the open file of [fd]. *)
Lemma dupfd_spec fd s n s' d :
  kernel os (sys_dupfd fd fd) s = (n, s') ->
  p_fds s !! fd = Some d -> 0 <= fd ->
  os_fails os s (sys_dupfd fd fd) = false ->
  fd < n /\ p_fds s !! n = None /\ p_fds s' = <[n := d]> (p_fds s).
Proof.
  simpl. intros E Hfd Hpos Hok. rewrite Hfd, Hok in E.
  replace (fd <? 0) with false in E by lia. injection E as <- <-.
  pose proof (alloc_fd_free (p_fds s) fd) as Hfree.
  pose proof (alloc_fd_ge (p_fds s) fd) as Hge.
  split; [| by split].
  destruct (Z.eq_dec (alloc_fd (p_fds s) fd) fd) as [E | ?]; [| lia].
  rewrite E in Hfree. congruence.
Qed.
End Keeps.

(** Carry [p_fds _ !! x = Some d] forward through the calls a run made. *)
Ltac forward_keeps os x d Hn1 Hn2 :=
  repeat match goal with
    | E : kernel os (sys_open _ _ _) ?s0 = (?fd, _),
      H : p_fds ?s0 !! x = Some d |- _ =>
        destruct (open_keeps_val os _ _ _ _ _ _ x d E H) as [? ?];
        clear E
    | E : kernel os (sys_dup2 _ STDOUT_FILENO) ?s0 = _,
      H : p_fds ?s0 !! x = Some d |- _ =>
        pose proof (dup2_keeps_val os _ _ _ _ _ x d E Hn1 H); clear E
    | E : kernel os (sys_dup2 _ STDERR_FILENO) ?s0 = _,
      H : p_fds ?s0 !! x = Some d |- _ =>
        pose proof (dup2_keeps_val os _ _ _ _ _ x d E Hn2 H); clear E
    | E : kernel os (sys_close ?fd) ?s0 = _,
      H : p_fds ?s0 !! x = Some d |- _ =>
        pose proof (close_keeps_val os _ _ _ _ x d E ltac:(lia) H);
        clear E
    end.

Section FileOperationsKeeps.
Context {K : constants} (os : OS).

(** The input redirection changes descriptor 0 only. *)
Lemma redirect_input_keeps sc s s' x d :
  run os (redirect_input sc) s = (Returned tt, s') ->
  x <> STDIN_FILENO -> p_fds s !! x = Some d -> p_fds s' !! x = Some d.
Proof.
  unfold redirect_input, open, dup2, close, call. intros E Hne Hx.
  destruct (in_ sc) as [w |]; [| by injection E as <-].
  cbn [bind] in E. rewrite run_Call in E.
  destruct (kernel os (sys_open _ _ _) s) as [fd s1] eqn:E1.
  destruct (open_keeps_val os _ _ _ _ _ _ x d E1 Hx) as [H1 Hfd].
  destruct (fd =? -1) eqn:Hneg; [discriminate E |].
  rewrite run_Call in E.
  destruct (kernel os (sys_dup2 _ _) s1) as [r s2] eqn:E2.
  pose proof (dup2_keeps_val os _ _ _ _ _ x d E2 Hne H1) as H2.
  destruct (r =? -1); [discriminate E |].
  rewrite run_Call in E.
  destruct (kernel os (sys_close _) s2) as [r3 s3] eqn:E3.
  injection E as <-.
  eapply close_keeps_val; [exact E3 | | exact H2]. lia.
Qed.

(** An input redirection that returns has put the file on descriptor 0,
    when descriptor 0 was open. *)
Lemma redirect_input_installs sc w s s' :
  in_ sc = Some w -> is_Some (p_fds s !! STDIN_FILENO) ->
  run os (redirect_input sc) s = (Returned tt, s') ->
  p_fds s' !! STDIN_FILENO
  = Some (mk_ofd (List.length (p_trace s)) (Path (w_text w) O_RDONLY)).
Proof.
  unfold redirect_input, open, dup2, close, call. intros Hin [d0 H0] E.
  rewrite Hin in E. cbn [bind] in E. rewrite run_Call in E.
  destruct (kernel os (sys_open _ _ _) s) as [fd s1] eqn:E1.
  destruct (fd =? -1) eqn:Hneg; [discriminate E |].
  apply open_spec in E1 as [_ [[? _] | (_ & Hfree & Hs1)]]; [lia |].
  rewrite run_Call in E.
  destruct (kernel os (sys_dup2 _ _) s1) as [r s2] eqn:E2.
  destruct (r =? -1) eqn:Hr; [discriminate E |].
  apply dup2_spec in E2 as [_ [[? _] | (_ & _ & d & Hd & Hs2)]]; [lia |].
  rewrite run_Call in E.
  destruct (kernel os (sys_close _) s2) as [r3 s3] eqn:E3.
  injection E as <-.
  assert (Hne : fd <> STDIN_FILENO) by congruence.
  rewrite Hs1, lookup_insert_eq in Hd. injection Hd as <-.
  eapply close_keeps_val; [exact E3 | done |].
  by rewrite Hs2, lookup_insert_eq.
Qed.

(** The output and error redirections change descriptors 1 and 2 only. *)
Lemma redirect_output_keeps sc s x d :
  x <> STDOUT_FILENO -> x <> STDERR_FILENO ->
  p_fds s !! x = Some d ->
  exists s', run os (redirect_output sc) s = (Returned tt, s')
             /\ p_fds s' !! x = Some d.
Proof.
  intros Hn1 Hn2 Hx. unfold redirect_output, open, dup2, close, call.
  destruct (out sc) as [wo |], (err sc) as [we |]; cbn [get_word];
    try (by eexists);
    destruct (negb (Z.land (io_flags sc) (Z.lor IO_OUT_APPEND IO_ERR_APPEND) =? 0));
    repeat (cbn [bind Pos.eqb Z.eqb]; cbv zeta; rewrite ?run_Call;
            match goal with
            | |- context [if ?b then _ else _] =>
                let B := fresh "B" in destruct b eqn:B
            | |- context [kernel os ?c ?s] =>
                let E := fresh "E" in
                destruct (kernel os c s) as [? ?] eqn:E
            | |- exists _, run os (Ret _) _ = _ /\ _ =>
                eexists; split; [reflexivity |]
            end).
  all: forward_keeps os x d Hn1 Hn2.
  all: assumption.
Qed.

(** [file_operations] changes descriptors 0, 1 and 2 only. *)
Lemma file_operations_keeps sc s s' x d :
  run os (file_operations sc) s = (Returned tt, s') ->
  x <> STDIN_FILENO -> x <> STDOUT_FILENO -> x <> STDERR_FILENO ->
  p_fds s !! x = Some d -> p_fds s' !! x = Some d.
Proof.
  unfold file_operations. rewrite run_bind by apply redirect_input_tidy.
  intros E H0 H1 H2 Hx.
  destruct (run os (redirect_input sc) s) as [[[] | t] s1] eqn:E1;
    cbn [bind_outcome] in E; [| discriminate E].
  pose proof (redirect_input_keeps sc s s1 x d E1 H0 Hx) as Hx1.
  destruct (redirect_output_keeps sc s1 x d H1 H2 Hx1) as (s2 & E2 & Hx2).
  rewrite E2 in E. by injection E as <-.
Qed.

(** After [file_operations] with an input target, descriptor 0 is that
    file, when descriptor 0 was open. *)
Lemma file_operations_stdin sc w s s' :
  in_ sc = Some w -> is_Some (p_fds s !! STDIN_FILENO) ->
  run os (file_operations sc) s = (Returned tt, s') ->
  p_fds s' !! STDIN_FILENO
  = Some (mk_ofd (List.length (p_trace s)) (Path (w_text w) O_RDONLY)).
Proof.
  unfold file_operations. rewrite run_bind by apply redirect_input_tidy.
  intros Hin H0 E.
  destruct (run os (redirect_input sc) s) as [[[] | t] s1] eqn:E1;
    cbn [bind_outcome] in E; [| discriminate E].
  pose proof (redirect_input_installs sc w s s1 Hin H0 E1) as Hx1.
  destruct (redirect_output_keeps sc s1 STDIN_FILENO _ ltac:(done) ltac:(done)
              Hx1) as (s2 & E2 & Hx2).
  rewrite E2 in E. by injection E as <-.
Qed.

(** [shell_cd] leaves the descriptors alone. *)
Lemma shell_cd_fds dir s :
  p_fds (snd (run os (shell_cd dir) s)) = p_fds s.
Proof.
  unfold shell_cd, chdir, getcwd, call.
  destruct dir as [w |]; [| done]. cbn [get_word].
  destruct (starts_with_slash (w_text w)); simpl.
  - by destruct (os_chdir os s (w_text w)).
  - destruct (os_fails os s (sys_getcwd PATH_MAX) || _); simpl; [done |].
    destruct (_ >=? PATH_MAX); simpl; [done |].
    by destruct (os_chdir os _ _).
Qed.
End FileOperationsKeeps.

(** ** Built-ins and the descriptors *)

Section Builtins.
Context {K : constants} (os : OS).

(** Saving the standard output and error, doing something that leaves the
    descriptors above 2 alone, and restoring them. *)
Lemma save_restore s n1 s1 n2 s2 s3 r1 s4 r2 s5 d1 d2 :
  p_fds s !! STDOUT_FILENO = Some d1 -> p_fds s !! STDERR_FILENO = Some d2 ->
  os_fails os s (sys_dupfd STDOUT_FILENO STDOUT_FILENO) = false ->
  os_fails os s1 (sys_dupfd STDERR_FILENO STDERR_FILENO) = false ->
  kernel os (sys_dupfd STDOUT_FILENO STDOUT_FILENO) s = (n1, s1) ->
  kernel os (sys_dupfd STDERR_FILENO STDERR_FILENO) s1 = (n2, s2) ->
  (forall x d, x <> STDIN_FILENO -> x <> STDOUT_FILENO -> x <> STDERR_FILENO ->
               p_fds s2 !! x = Some d -> p_fds s3 !! x = Some d) ->
  kernel os (sys_dup2 n1 STDOUT_FILENO) s3 = (r1, s4) -> r1 <> -1 ->
  kernel os (sys_dup2 n2 STDERR_FILENO) s4 = (r2, s5) -> r2 <> -1 ->
  (2 < n1 /\ 2 < n2 /\ n1 <> n2
   /\ p_fds s !! n1 = None /\ p_fds s !! n2 = None)
  /\ (p_fds s5 !! STDOUT_FILENO = Some d1 /\ p_fds s5 !! STDERR_FILENO = Some d2
      /\ p_fds s5 !! n1 = Some d1 /\ p_fds s5 !! n2 = Some d2)
  /\ (forall x d, x <> STDOUT_FILENO -> x <> STDERR_FILENO ->
                  p_fds s3 !! x = Some d -> p_fds s5 !! x = Some d)
  /\ (forall x d, x <> n1 -> x <> n2 ->
                  p_fds s !! x = Some d -> p_fds s2 !! x = Some d).
Proof.
  unfold STDIN_FILENO, STDOUT_FILENO, STDERR_FILENO.
  intros H1 H2 Hok1 Hok2 E1 E2 Hmid E3 Hr1 E4 Hr2.
  destruct (dupfd_spec os 1 s n1 s1 d1 E1 H1 ltac:(done) Hok1)
    as (Hn1 & Hfree1 & Hs1).
  assert (H2' : p_fds s1 !! 2 = Some d2).
  { rewrite Hs1, lookup_insert_ne; [done | congruence]. }
  destruct (dupfd_spec os 2 s1 n2 s2 d2 E2 H2' ltac:(done) Hok2)
    as (Hn2 & Hfree2 & Hs2).
  assert (Hn12 : n1 <> n2).
  { intros <-. by rewrite Hs1, lookup_insert_eq in Hfree2. }
  assert (Hn1' : 2 < n1).
  { destruct (Z.eq_dec n1 2) as [-> | ?]; [congruence | lia]. }
  assert (Hfree2' : p_fds s !! n2 = None).
  { by rewrite Hs1, lookup_insert_ne in Hfree2. }
  assert (Hsaved1 : p_fds s3 !! n1 = Some d1).
  { apply Hmid; [lia .. |]. rewrite Hs2, Hs1.
    by rewrite lookup_insert_ne, lookup_insert_eq. }
  assert (Hsaved2 : p_fds s3 !! n2 = Some d2).
  { apply Hmid; [lia .. |]. by rewrite Hs2, lookup_insert_eq. }
  apply dup2_spec in E3 as [_ [[? _] | (_ & _ & d & Hd & Hs4)]]; [done |].
  apply dup2_spec in E4 as [_ [[? _] | (_ & _ & d' & Hd' & Hs5)]]; [done |].
  rewrite Hsaved1 in Hd. injection Hd as <-.
  rewrite Hs4, lookup_insert_ne, Hsaved2 in Hd' by lia. injection Hd' as <-.
  split; [done |]. split; [| split].
  - rewrite Hs5, Hs4. repeat split.
    + by rewrite lookup_insert_ne, lookup_insert_eq.
    + by rewrite lookup_insert_eq.
    + by rewrite !lookup_insert_ne by lia.
    + by rewrite !lookup_insert_ne by lia.
  - intros x d Hx1 Hx2 Hx. by rewrite Hs5, Hs4, !lookup_insert_ne.
  - intros x d Hx1 Hx2 Hx. by rewrite Hs2, Hs1, !lookup_insert_ne.
Qed.

Lemma getcwd_fds size s : p_fds (snd (kernel os (sys_getcwd size) s)) = p_fds s.
Proof. simpl. by destruct (_ || _). Qed.

Lemma dprintf_fds fd text s :
  p_fds (snd (kernel os (sys_dprintf fd text) s)) = p_fds s.
Proof. simpl. by destruct (p_fds s !! fd). Qed.

Lemma sandwich_fds sc s n1 s1 n2 s2 s3 s3' r1 s4 r2 s5 d1 d2 :
  p_fds s !! STDOUT_FILENO = Some d1 -> p_fds s !! STDERR_FILENO = Some d2 ->
  (forall s' fd, os_fails os s' (sys_dupfd fd fd) = false) ->
  kernel os (sys_dupfd STDOUT_FILENO STDOUT_FILENO) s = (n1, s1) ->
  kernel os (sys_dupfd STDERR_FILENO STDERR_FILENO) s1 = (n2, s2) ->
  run os (file_operations sc) s2 = (Returned tt, s3) ->
  p_fds s3' = p_fds s3 ->
  kernel os (sys_dup2 n1 STDOUT_FILENO) s3' = (r1, s4) -> (r1 =? -1) = false ->
  kernel os (sys_dup2 n2 STDERR_FILENO) s4 = (r2, s5) -> (r2 =? -1) = false ->
  builtin_fds sc s s5 d1 d2.
Proof.
  intros H1 H2 Hok E1 E2 Efo Hsame E3 Hr1 E4 Hr2.
  assert (Hmid : forall x d, x <> STDIN_FILENO -> x <> STDOUT_FILENO ->
                             x <> STDERR_FILENO ->
                             p_fds s2 !! x = Some d -> p_fds s3' !! x = Some d).
  { intros x d ? ? ? Hx. rewrite Hsame.
    by apply (file_operations_keeps os sc s2 s3 x d Efo). }
  destruct (save_restore s n1 s1 n2 s2 s3' r1 s4 r2 s5 d1 d2 H1 H2
              (Hok _ _) (Hok _ _) E1 E2 Hmid E3 ltac:(lia) E4 ltac:(lia))
    as (Hfresh & Hstd & Hafter & Hbefore).
  exists n1, n2. split; [done |]. split; [done |]. split.
  - intros x d Hx0 Hx1 Hx2 Hxn1 Hxn2 Hx. apply Hafter; [done .. |].
    apply Hmid; [done .. |]. by apply Hbefore.
  - intros w Hin [d0 H0].
    assert (H0' : is_Some (p_fds s2 !! STDIN_FILENO)).
    { exists d0. apply Hbefore; [| | done]; unfold STDIN_FILENO; lia. }
    pose proof (file_operations_stdin os sc w s2 s3 Hin H0' Efo) as Hfile.
    eexists. apply Hafter; [done | done |]. rewrite Hsame. exact Hfile.
Qed.

Lemma cd_case_fds com sc s r s' d1 d2 :
  p_fds s !! STDOUT_FILENO = Some d1 -> p_fds s !! STDERR_FILENO = Some d2 ->
  (forall s' fd, os_fails os s' (sys_dupfd fd fd) = false) ->
  run os (parse_simple_cd_case com sc) s = (Returned r, s') ->
  builtin_fds sc s s' d1 d2.
Proof.
  intros H1 H2 Hok. unfold parse_simple_cd_case, fcntl_F_DUPFD, dup2.
  rewrite run_call. destruct (kernel os _ s) as [n1 s1] eqn:E1.
  rewrite run_call. destruct (kernel os _ s1) as [n2 s2] eqn:E2.
  rewrite run_bind by apply file_operations_tidy.
  destruct (run os (file_operations sc) s2) as [[[] | t] s3] eqn:Efo;
    cbn [bind_outcome]; [| discriminate].
  rewrite run_call. destruct (kernel os _ s3) as [r1 s4] eqn:E3.
  destruct (r1 =? -1) eqn:Hr1; [discriminate |].
  rewrite run_call. destruct (kernel os _ s4) as [r2 s5] eqn:E4.
  destruct (r2 =? -1) eqn:Hr2; [discriminate |].
  rewrite run_bind by apply shell_cd_tidy.
  pose proof (shell_cd_fds os (params sc) s5) as Hcd.
  destruct (run os (shell_cd (params sc)) s5) as [[ok | t] s6];
    cbn [bind_outcome run snd] in *; [| discriminate].
  intros [= _ <-].
  pose proof (sandwich_fds sc s n1 s1 n2 s2 s3 s3 r1 s4 r2 s5 d1 d2 H1 H2 Hok
                E1 E2 Efo eq_refl E3 Hr1 E4 Hr2) as H.
  unfold builtin_fds in *. by rewrite Hcd.
Qed.

Lemma pwd_case_fds com sc s r s' d1 d2 :
  p_fds s !! STDOUT_FILENO = Some d1 -> p_fds s !! STDERR_FILENO = Some d2 ->
  (forall s' fd, os_fails os s' (sys_dupfd fd fd) = false) ->
  run os (parse_simple_pwd_case com sc) s = (Returned r, s') ->
  builtin_fds sc s s' d1 d2 /\ r = 0.
Proof.
  intros H1 H2 Hok.
  unfold parse_simple_pwd_case, fcntl_F_DUPFD, dup2, getcwd, dprintf.
  rewrite run_call. destruct (kernel os _ s) as [n1 s1] eqn:E1.
  rewrite run_call. destruct (kernel os _ s1) as [n2 s2] eqn:E2.
  rewrite run_bind by apply file_operations_tidy.
  destruct (run os (file_operations sc) s2) as [[[] | t] s3] eqn:Efo;
    cbn [bind_outcome]; [| discriminate].
  rewrite run_call. pose proof (getcwd_fds PATH_MAX s3) as Hg.
  destruct (kernel os (sys_getcwd PATH_MAX) s3) as [path s3a].
  rewrite run_call. pose proof (dprintf_fds STDOUT_FILENO
    (String.append match path with Some p => p | None => "(null)" end newline)
    s3a) as Hp.
  destruct (kernel os (sys_dprintf _ _) s3a) as [x s3b].
  cbn [snd] in Hg, Hp.
  rewrite run_call. destruct (kernel os _ s3b) as [r1 s4] eqn:E3.
  destruct (r1 =? -1) eqn:Hr1; [discriminate |].
  rewrite run_call. destruct (kernel os _ s4) as [r2 s5] eqn:E4.
  destruct (r2 =? -1) eqn:Hr2; [discriminate |].
  cbn [run]. intros [= <- <-]. split; [| done].
  apply (sandwich_fds sc s n1 s1 n2 s2 s3 s3b r1 s4 r2 s5 d1 d2 H1 H2 Hok
           E1 E2 Efo); [congruence | done ..].
Qed.

(** The built-ins [cd] and [pwd], through [parse_simple]. *)
Lemma builtin_descriptors sc level father s r s' d1 d2 :
  get_word (verb sc) = Some "cd" \/ get_word (verb sc) = Some "pwd" ->
  p_fds s !! STDOUT_FILENO = Some d1 -> p_fds s !! STDERR_FILENO = Some d2 ->
  (forall s' fd, os_fails os s' (sys_dupfd fd fd) = false) ->
  run os (parse_simple (Some sc) level father) s = (Returned r, s') ->
  builtin_fds sc s s' d1 d2.
Proof.
  intros Hverb H1 H2 Hok. unfold parse_simple.
  destruct (verb sc) as [v |] eqn:Hv; [| by destruct Hverb].
  cbn [get_word] in *.
  destruct Hverb as [E | E]; injection E as ->;
    cbn -[run parse_simple_cd_case parse_simple_pwd_case]; intros Hrun.
  - by apply (cd_case_fds "cd" sc s r s' d1 d2).
  - by apply (pwd_case_fds "pwd" sc s r s' d1 d2).
Qed.
End Builtins.

(** X8: when [cd] or [pwd] returns, having saved descriptors 1 and 2 with
    two [F_DUPFD] calls that did not fail, descriptors 1 and 2 name the open
    files they named before, whatever the redirections of the command. *)
Theorem builtin_restores_stdout_stderr {K : constants} (os : OS) sc level
    father s r s' d1 d2 :
  get_word (verb sc) = Some "cd" \/ get_word (verb sc) = Some "pwd" ->
  p_fds s !! STDOUT_FILENO = Some d1 -> p_fds s !! STDERR_FILENO = Some d2 ->
  (forall s' fd, os_fails os s' (sys_dupfd fd fd) = false) ->
  run os (parse_simple (Some sc) level father) s = (Returned r, s') ->
  p_fds s' !! STDOUT_FILENO = Some d1 /\ p_fds s' !! STDERR_FILENO = Some d2.
Proof.
  intros Hverb H1 H2 Hok Hrun.
  destruct (builtin_descriptors os sc level father s r s' d1 d2
              Hverb H1 H2 Hok Hrun) as (n1 & n2 & _ & (? & ? & _) & _).
  done.
Qed.

Lemma builtin_restores_stdout_stderr_witness :
  let s' := snd (run os0 (@parse_simple constants0 (Some both_to_log) 0 None)
                     shell0) in
  p_fds s' !! 1 = Some (tty 1) /\ p_fds s' !! 2 = Some (tty 2).
Proof.
  intros s'.
  apply (@builtin_restores_stdout_stderr constants0 os0 both_to_log 0 None
           shell0 0 s' (tty 1) (tty 2));
    [right; reflexivity | reflexivity | reflexivity
    | intros; reflexivity | vm_compute; reflexivity].
Defined.

(** X9: when [cd] or [pwd] returns, the two descriptors it saved the
    standard output and error on (the [F_DUPFD] calls did not fail) are still
    open: two descriptors that were free now name those open files. *)
Theorem builtin_leaves_saved_descriptors_open {K : constants} (os : OS) sc
    level father s r s' d1 d2 :
  get_word (verb sc) = Some "cd" \/ get_word (verb sc) = Some "pwd" ->
  p_fds s !! STDOUT_FILENO = Some d1 -> p_fds s !! STDERR_FILENO = Some d2 ->
  (forall s' fd, os_fails os s' (sys_dupfd fd fd) = false) ->
  run os (parse_simple (Some sc) level father) s = (Returned r, s') ->
  exists n1 n2,
    n1 <> n2
    /\ p_fds s !! n1 = None /\ p_fds s !! n2 = None
    /\ p_fds s' !! n1 = Some d1 /\ p_fds s' !! n2 = Some d2.
Proof.
  intros Hverb H1 H2 Hok Hrun.
  destruct (builtin_descriptors os sc level father s r s' d1 d2
              Hverb H1 H2 Hok Hrun)
    as (n1 & n2 & (_ & _ & ? & ? & ?) & (_ & _ & ? & ?) & _).
  by exists n1, n2.
Qed.

Lemma builtin_leaves_saved_descriptors_open_witness :
  let s' := snd (run os0 (@parse_simple constants0 (Some (simple "cd" None))
                            0 None) shell0) in
  exists n1 n2,
    n1 <> n2
    /\ p_fds shell0 !! n1 = None /\ p_fds shell0 !! n2 = None
    /\ p_fds s' !! n1 = Some (tty 1) /\ p_fds s' !! n2 = Some (tty 2).
Proof.
  intros s'.
  apply (@builtin_leaves_saved_descriptors_open constants0 os0
           (simple "cd" None) 0 None shell0 0 s' (tty 1) (tty 2));
    [left; reflexivity | reflexivity | reflexivity
    | intros; reflexivity | vm_compute; reflexivity].
Defined.

(** X10: the input redirection of [cd] or [pwd] is not undone: when the
    built-in returns (descriptors 0, 1 and 2 were open, the [F_DUPFD] calls
    did not fail), descriptor 0 of the shell is the input target, opened
    read-only. *)
Theorem builtin_input_redirection_stays {K : constants} (os : OS) sc w level
    father s r s' d1 d2 :
  get_word (verb sc) = Some "cd" \/ get_word (verb sc) = Some "pwd" ->
  in_ sc = Some w -> is_Some (p_fds s !! STDIN_FILENO) ->
  p_fds s !! STDOUT_FILENO = Some d1 -> p_fds s !! STDERR_FILENO = Some d2 ->
  (forall s' fd, os_fails os s' (sys_dupfd fd fd) = false) ->
  run os (parse_simple (Some sc) level father) s = (Returned r, s') ->
  exists id,
    p_fds s' !! STDIN_FILENO = Some (mk_ofd id (Path (w_text w) O_RDONLY)).
Proof.
  intros Hverb Hin H0 H1 H2 Hok Hrun.
  destruct (builtin_descriptors os sc level father s r s' d1 d2
              Hverb H1 H2 Hok Hrun) as (n1 & n2 & _ & _ & _ & Hstdin).
  by apply Hstdin.
Qed.

Lemma builtin_input_redirection_stays_witness :
  let s' := snd (run os0 (@parse_simple constants0 (Some pwd_from_log) 0 None)
                     shell0) in
  exists id, p_fds s' !! 0 = Some (mk_ofd id (Path "log" 0)).
Proof.
  intros s'.
  apply (@builtin_input_redirection_stays constants0 os0 pwd_from_log
           (mk_word "log" None) 0 None shell0 0 s' (tty 1) (tty 2));
    [right; reflexivity | reflexivity | by eexists | reflexivity | reflexivity
    | intros; reflexivity | vm_compute; reflexivity].
Defined.

(** X7: when [file_operations] returns, every open descriptor other than 0,
    1 and 2 is on the open file it was on. *)
Theorem file_operations_keeps_other_descriptors {K : constants} (os : OS) sc
    s s' x d :
  run os (file_operations sc) s = (Returned tt, s') ->
  x <> STDIN_FILENO -> x <> STDOUT_FILENO -> x <> STDERR_FILENO ->
  p_fds s !! x = Some d -> p_fds s' !! x = Some d.
Proof. apply file_operations_keeps. Qed.

(** ** The ends of a pipe *)

Section PipeEnds.
Context {K : constants} (os : OS).

(** [pipe] that is not refused: the two ends go on two descriptors that
    were free. *)
Lemma pipe_spec_fds s :
  os_fails os s sys_pipe = false ->
  exists rd wr s1 a b,
    kernel os sys_pipe s = ((0, (rd, wr)), s1)
    /\ rd <> wr /\ p_fds s !! rd = None /\ p_fds s !! wr = None
    /\ p_fds s1 = <[wr := b]> (<[rd := a]> (p_fds s))
    /\ p_children s1 = p_children s.
Proof.
  intros Hok. simpl. rewrite Hok. do 5 eexists. split; [reflexivity |].
  simpl.
  set (rd := alloc_fd (p_fds s) 0).
  set (fds1 := <[rd := _]> (p_fds s)).
  pose proof (alloc_fd_free (p_fds s) 0) as Hfree1.
  pose proof (alloc_fd_free fds1 0) as Hfree2.
  assert (Hne : rd <> alloc_fd fds1 0).
  { intros E. rewrite <- E in Hfree2. unfold fds1 in Hfree2.
    by rewrite lookup_insert_eq in Hfree2. }
  split; [done |]. split; [done |]. split; [| done].
  unfold fds1 in Hfree2. by rewrite lookup_insert_ne in Hfree2.
Qed.

Lemma waitpid_fds pid options s :
  p_fds (snd (kernel os (sys_waitpid pid options) s)) = p_fds s.
Proof.
  simpl. destruct (os_fails os s _); [done |].
  by destruct (reap pid (p_children s)) as [[[p t] rest] |].
Qed.

(** The two waits at the end of [run_on_pipe] leave the descriptors alone. *)
Lemma pipe_waits_fds pid1 pid2 s :
  p_fds (snd (run os
                (do '(r, state) <- waitpid pid1 0;
                 if r =? -1 then Ret false
                 else
                   do '(r, state) <- waitpid pid2 0;
                   if r =? -1 then Ret false
                   else if WIFSTOPPED state || negb (WSTOPSIG state =? 0)
                   then Ret false
                   else Ret true) s)) = p_fds s.
Proof.
  unfold waitpid. rewrite run_call.
  pose proof (waitpid_fds pid1 0 s) as H1.
  destruct (kernel os (sys_waitpid pid1 0) s) as [[r st] s1]. cbn [snd] in H1.
  destruct (r =? -1); [done |].
  rewrite run_call.
  pose proof (waitpid_fds pid2 0 s1) as H2.
  destruct (kernel os (sys_waitpid pid2 0) s1) as [[r' st'] s2]. cbn [snd] in H2.
  destruct (r' =? -1); [by rewrite <- H1 |].
  destruct (_ || _); cbn [run snd]; congruence.
Qed.

Lemma closes_undo_pipe (fds : gmap Z ofd) rd wr a b :
  rd <> wr -> fds !! rd = None -> fds !! wr = None ->
  delete wr (delete rd (<[wr := b]> (<[rd := a]> fds))) = fds.
Proof.
  intros Hne Hrd Hwr. apply map_eq. intros i.
  destruct (decide (i = wr)) as [-> | Hw]; [by rewrite lookup_delete_eq |].
  rewrite lookup_delete_ne by done.
  destruct (decide (i = rd)) as [-> | Hr]; [by rewrite lookup_delete_eq |].
  by rewrite lookup_delete_ne, !lookup_insert_ne.
Qed.
(** The parent's part of [run_on_pipe] after the forks: it closes both ends
    and waits. *)
Lemma pipe_parent_tail pid1 pid2 rd wr a b (fds : gmap Z ofd) s2 :
  p_fds s2 = <[wr := b]> (<[rd := a]> fds) ->
  rd <> wr -> fds !! rd = None -> fds !! wr = None ->
  p_fds (snd (run os
                (do _ <- close rd;
                 do _ <- close wr;
                 do '(r, state) <- waitpid pid1 0;
                 if r =? -1 then Ret false
                 else
                   do '(r, state) <- waitpid pid2 0;
                   if r =? -1 then Ret false
                   else if WIFSTOPPED state || negb (WSTOPSIG state =? 0)
                   then Ret false
                   else Ret true) s2)) = fds.
Proof.
  intros Hfds Hne Hrd Hwr. unfold close at 1. rewrite run_call.
  rewrite close_spec
    by (rewrite Hfds, lookup_insert_ne, lookup_insert_eq by done; by eexists).
  unfold close. rewrite run_call.
  rewrite close_spec.
  2:{ cbn [log set_fds p_fds]. rewrite Hfds, lookup_delete_ne by done.
      rewrite lookup_insert_eq. by eexists. }
  rewrite pipe_waits_fds. cbn [log set_fds p_fds]. rewrite Hfds.
  by apply closes_undo_pipe.
Qed.
End PipeEnds.

(** X14: whatever happens to the pipe, the forks and the waits, the
    descriptor table of the process that ran [run_on_pipe] is afterwards what
    it was before: both ends of the pipe are closed again. *)
Theorem run_on_pipe_closes_both_ends {K : constants} (os : OS) rec c1 c2 level
    father s :
  p_fds (snd (run os (run_on_pipe rec c1 c2 level father) s)) = p_fds s.
Proof.
  unfold run_on_pipe, pipe. rewrite run_call.
  destruct (os_fails os s sys_pipe) eqn:Hpipe.
  { cbn [kernel]. by rewrite Hpipe. }
  destruct (pipe_spec_fds os s Hpipe)
    as (rd & wr & s1 & a & b & -> & Hne & Hrd & Hwr & Hfds & _).
  cbn [Z.eqb]. rewrite run_fork.
  destruct (os_fork os s1); cbn [Z.eqb bind]; rewrite run_fork;
    match goal with
    | |- context [os_fork os ?s2] => destruct (os_fork os s2)
    end; cbn [Z.eqb bind];
    by apply (pipe_parent_tail os _ _ rd wr a b).
Qed.

(** ** Children waited for *)

Section Children.
Context {K : constants} (os : OS).

Lemma kernel_children {R : Type} (c : syscall R) s :
  is_waitpid c = false -> p_children (snd (kernel os c s)) = p_children s.
Proof.
  destruct c; try discriminate; intros _; simpl;
    repeat match goal with
      | |- context [match ?x with _ => _ end] => destruct x; simpl
      end; reflexivity.
Qed.

Lemma keeps_bind {A B : Type} (m : prog A) (f : A -> prog B) :
  tidy m -> keeps_children os m -> (forall a, keeps_children os (f a)) ->
  keeps_children os (bind m f).
Proof.
  intros Ht Hm Hf s. rewrite run_bind by done. specialize (Hm s).
  destruct (run os m s) as [[a | t] s1]; cbn [bind_outcome snd] in *;
    [| done]. by rewrite Hf.
Qed.

Lemma keeps_call {R : Type} (c : syscall R) :
  is_waitpid c = false -> keeps_children os (call c).
Proof.
  intros Hc s. unfold call. cbn [run].
  pose proof (kernel_children c s Hc).
  by destruct (kernel os c s).
Qed.

Lemma tidy_call {R : Type} (c : syscall R) : tidy (call c).
Proof. by intros r. Qed.
End Children.

Ltac keeps_step os :=
  match goal with
  | |- keeps_children os (Ret _) => by intros ?
  | |- keeps_children os (Exit _) => by intros ?
  | |- keeps_children os Segv => by intros ?
  | |- keeps_children os (bind (call _) _) =>
      apply keeps_bind; [apply tidy_call | by apply keeps_call | intros ?]
  | |- keeps_children os (call _) => by apply keeps_call
  | |- keeps_children os (bind _ _) =>
      apply keeps_bind; [solve [repeat tidy_step] | | intros ?]
  | |- keeps_children os (if ?b then _ else _) => destruct b
  | |- keeps_children os (match ?x with _ => _ end) => destruct x
  | |- keeps_children os (let '(_, _) := ?x in _) => destruct x
  end.

Section Zombies.
Context {K : constants} (os : OS).

Lemma shell_cd_keeps dir : keeps_children os (shell_cd dir).
Proof. unfold shell_cd, chdir, getcwd. repeat keeps_step os. Qed.

Lemma redirect_input_keeps_children sc : keeps_children os (redirect_input sc).
Proof. unfold redirect_input, open, dup2, close. repeat keeps_step os. Qed.

Lemma redirect_output_keeps_children sc :
  keeps_children os (redirect_output sc).
Proof.
  unfold redirect_output, open, dup2, close.
  destruct (out sc), (err sc); cbn [get_word]; repeat keeps_step os.
Qed.

Lemma file_operations_keeps_children sc :
  keeps_children os (file_operations sc).
Proof.
  apply keeps_bind;
    [apply redirect_input_tidy | apply redirect_input_keeps_children |].
  intros _. apply redirect_output_keeps_children.
Qed.

Lemma parse_simple_cd_case_keeps com sc :
  keeps_children os (parse_simple_cd_case com sc).
Proof.
  unfold parse_simple_cd_case, fcntl_F_DUPFD, dup2.
  repeat first
    [ keeps_step os
    | apply keeps_bind;
      [apply file_operations_tidy | apply file_operations_keeps_children
      | intros ?]
    | apply keeps_bind; [apply shell_cd_tidy | apply shell_cd_keeps | intros ?] ].
Qed.

Lemma parse_simple_pwd_case_keeps com sc :
  keeps_children os (parse_simple_pwd_case com sc).
Proof.
  unfold parse_simple_pwd_case, fcntl_F_DUPFD, dup2, getcwd, dprintf.
  repeat first
    [ keeps_step os
    | apply keeps_bind;
      [apply file_operations_tidy | apply file_operations_keeps_children
      | intros ?] ].
Qed.

Hypothesis Hos : reaping os.

Lemma parse_simple_external_keeps com sc :
  keeps_children os (parse_simple_external com sc).
Proof.
  destruct Hos as [Hfork Hwait]. intros s.
  unfold parse_simple_external. rewrite run_fork, Hfork.
  match goal with |- context [parent_of s ?t] => generalize t end.
  intros t. cbn [Z.eqb]. unfold waitpid. rewrite run_call.
  rewrite (waitpid_spec os (Z.pos (p_next_pid s)) (parent_of s t)
             (Z.pos (p_next_pid s)) t (p_children s));
    [| apply Hwait | by apply reap_first].
  cbn [Z.eqb]. by destruct (WIFEXITED _).
Qed.

Lemma parse_simple_keeps sc level father :
  keeps_children os (parse_simple sc level father).
Proof.
  unfold parse_simple. destruct sc as [sc |]; [| by intros ?].
  destruct (verb sc) as [v |]; [| by intros ?]. cbn [get_word].
  destruct (String.eqb (w_text v) "cd"); [apply parse_simple_cd_case_keeps |].
  destruct (String.eqb (w_text v) "exit" || String.eqb (w_text v) "quit");
    [by intros ? |].
  destruct (String.eqb (w_text v) "pwd"); [apply parse_simple_pwd_case_keeps |].
  destruct (strchr (w_text v) "="); [by apply keeps_call |].
  apply parse_simple_external_keeps.
Qed.

Lemma run_in_parallel_keeps rec c1 c2 level father :
  keeps_children os (run_in_parallel rec c1 c2 level father).
Proof.
  destruct Hos as [Hfork Hwait]. intros s.
  unfold run_in_parallel. rewrite run_fork, Hfork.
  match goal with |- context [parent_of s ?t] => generalize t end.
  intros t1. cbn [Z.eqb bind]. rewrite run_fork, Hfork.
  match goal with |- context [parent_of (parent_of s t1) ?t] => generalize t end.
  intros t2. cbn [Z.eqb bind]. unfold waitpid. rewrite run_call.
  set (p1 := p_next_pid s).
  change (p_next_pid (parent_of s t1)) with (Pos.succ p1).
  rewrite (waitpid_spec os (Z.pos p1) _ (Z.pos p1) t1
             ((Z.pos (Pos.succ p1), t2) :: p_children s)).
  2: apply Hwait.
  2:{ apply reap_second; [done |]. pose proof (Pos.succ_discr p1). congruence. }
  cbn [Z.eqb]. rewrite run_call.
  rewrite (waitpid_spec os (Z.pos (Pos.succ p1)) _ (Z.pos (Pos.succ p1)) t2
             (p_children s)).
  2: apply Hwait.
  2: by apply reap_first.
  cbn [Z.eqb]. by destruct (_ && _).
Qed.

Lemma run_on_pipe_keeps rec c1 c2 level father :
  keeps_children os (run_on_pipe rec c1 c2 level father).
Proof.
  destruct Hos as [Hfork Hwait]. intros s.
  unfold run_on_pipe, pipe. rewrite run_call.
  destruct (os_fails os s sys_pipe) eqn:Hpipe.
  { cbn [kernel]. by rewrite Hpipe. }
  destruct (pipe_spec_fds os s Hpipe)
    as (rd & wr & s1 & a & b & -> & _ & _ & _ & _ & Hch).
  cbn [Z.eqb]. rewrite run_fork, Hfork.
  match goal with |- context [parent_of s1 ?t] => generalize t end.
  intros t1. cbn [Z.eqb bind]. rewrite run_fork, Hfork.
  match goal with |- context [parent_of (parent_of s1 t1) ?t] => generalize t end.
  intros t2. cbn [Z.eqb bind].
  set (p1 := p_next_pid s1).
  change (p_next_pid (parent_of s1 t1)) with (Pos.succ p1).
  set (s2 := parent_of (parent_of s1 t1) t2).
  assert (Hch2 : p_children s2
                 = (Z.pos (Pos.succ p1), t2) :: (Z.pos p1, t1) :: p_children s)
    by (by rewrite <- Hch).
  unfold close. rewrite run_call.
  pose proof (close_children os rd s2) as Hc3.
  destruct (kernel os (sys_close rd) s2) as [x3 s3]. cbn [snd] in Hc3.
  rewrite run_call.
  pose proof (close_children os wr s3) as Hc4.
  destruct (kernel os (sys_close wr) s3) as [x4 s4]. cbn [snd] in Hc4.
  unfold waitpid. rewrite run_call.
  rewrite (waitpid_spec os (Z.pos p1) s4 (Z.pos p1) t1
             ((Z.pos (Pos.succ p1), t2) :: p_children s)).
  2: apply Hwait.
  2:{ rewrite Hc4, Hc3, Hch2. apply reap_second; [done |].
      pose proof (Pos.succ_discr p1). congruence. }
  cbn [Z.eqb]. rewrite run_call.
  rewrite (waitpid_spec os (Z.pos (Pos.succ p1)) _ (Z.pos (Pos.succ p1)) t2
             (p_children s)).
  2: apply Hwait.
  2: by apply reap_first.
  cbn [Z.eqb]. by destruct (_ || _).
Qed.

Lemma parse_command_keeps c : forall level father,
  keeps_children os (parse_command c level father).
Proof.
  induction c as [o sc c1 c2 IH1 IH2] using command_ptr_ind.
  assert (Hptr1 : forall l f, keeps_children os (parse_command_ptr c1 l f)).
  { intros l f. destruct c1; [apply IH1 | by intros ?]. }
  assert (Hptr2 : forall l f, keeps_children os (parse_command_ptr c2 l f)).
  { intros l f. destruct c2; [apply IH2 | by intros ?]. }
  intros level father. rewrite parse_command_unfold.
  destruct o; cbn [op scmd cmd1 cmd2].
  - apply parse_simple_keeps.
  - apply keeps_bind; [apply parse_command_ptr_tidy | apply Hptr1 |].
    intros _.
    apply keeps_bind; [apply parse_command_ptr_tidy | apply Hptr2 |].
    by intros ? ?.
  - apply keeps_bind; [| apply run_in_parallel_keeps | by intros ? ?].
    apply run_in_parallel_tidy; intros; apply parse_command_ptr_tidy.
  - apply keeps_bind; [apply parse_command_ptr_tidy | apply Hptr1 |].
    intros r. destruct (r =? 0); [apply Hptr2 | by intros ?].
  - apply keeps_bind; [apply parse_command_ptr_tidy | apply Hptr1 |].
    intros r. destruct (negb (r =? 0)); [apply Hptr2 | by intros ?].
  - apply keeps_bind; [| apply run_on_pipe_keeps |].
    + apply run_on_pipe_tidy; intros; apply parse_command_ptr_tidy.
    + intros ok. by destruct (negb ok); intros ?.
  - by intros ?.
Qed.
End Zombies.

(** X15: when no fork and no wait fails, evaluating a command tree leaves no
    child behind: the children not waited for are those there were before. *)
Theorem no_child_left_unwaited {K : constants} (os : OS) c level father s :
  reaping os ->
  p_children (snd (run os (parse_command c level father) s)) = p_children s.
Proof. intros Hos. by apply parse_command_keeps. Qed.

Lemma no_child_left_unwaited_witness :
  p_children
    (snd (run os0
            (@parse_command constants0
               (node OP_PIPE (leaf (simple "true" None))
                  (node OP_PARALLEL (leaf (simple "false" None))
                     (leaf (simple "pwd" None)))) 0 None) shell0)) = [].
Proof.
  apply (@no_child_left_unwaited constants0 os0). by split.
Defined.

(** ** Parallel status and the first fork of a pipe *)

Section ParallelStatus.
Context {K : constants} (os : OS).

(** A child of [run_in_parallel] exits with the status of its command. *)
Lemma parallel_child {T : Type} B level father (rest : unit -> prog T) c rB sB :
  run os (parse_command B level father) c = (Returned rB, sB) ->
  fst (run os (bind (do r <- parse_command_ptr (Some B) level father; Exit r)
                    rest) c)
  = Terminated (Exited rB).
Proof.
  intros HB.
  match goal with
  | |- context [bind ?body rest] =>
      destruct (run_exits_bind os body rest c) as (t & s' & E1 & E2)
  end.
  { by apply exits_bind_r. }
  rewrite E2. cbn [fst].
  rewrite run_bind in E1 by apply parse_command_ptr_tidy.
  cbn [parse_command_ptr] in E1. rewrite HB in E1.
  cbn [bind_outcome run] in E1. by injection E1 as <- _.
Qed.

Lemma run_in_parallel_run A B level father s rA sA rB sB :
  reaping os -> (forall s, os_kill os s = None) ->
  run os (parse_command A (level + 1) father) (child_of s) = (Returned rA, sA) ->
  run os (parse_command B (level + 1) father)
      (child_of (parent_of s (Exited 0))) = (Returned rB, sB) ->
  fst (run os (run_in_parallel parse_command_ptr (Some A) (Some B) level father)
           s)
  = Returned ((Z.land rA 255 =? 0) && (Z.land rB 255 =? 0)).
Proof.
  intros [Hfork Hwait] Hkill HA HB.
  unfold run_in_parallel. rewrite run_fork, Hfork.
  match goal with
  | |- context [fate os ?c ?r] => assert (Hf1 : fate os c r = Exited rA)
  end.
  { unfold fate. rewrite Hkill. cbn [Z.eqb].
    match goal with
    | |- match run os (bind ?body ?rest) ?c with _ => _ end = _ =>
        pose proof (parallel_child A (level + 1) father rest c rA sA HA) as E;
        destruct (run os (bind body rest) c) as [[a | t] s'];
        cbn [fst] in E; [discriminate E |]; by injection E
    end. }
  rewrite Hf1. cbn [Z.eqb bind]. rewrite run_fork, Hfork.
  match goal with
  | |- context [fate os ?c ?r] => assert (Hf2 : fate os c r = Exited rB)
  end.
  { unfold fate. rewrite Hkill. cbn [Z.eqb].
    change (child_of (parent_of s (Exited rA)))
      with (child_of (parent_of s (Exited 0))).
    match goal with
    | |- match run os (bind ?body ?rest) ?c with _ => _ end = _ =>
        pose proof (parallel_child B (level + 1) father rest c rB sB HB) as E;
        destruct (run os (bind body rest) c) as [[a | t] s'];
        cbn [fst] in E; [discriminate E |]; by injection E
    end. }
  rewrite Hf2. cbn [Z.eqb bind]. unfold waitpid. rewrite run_call.
  set (p1 := p_next_pid s).
  change (p_next_pid (parent_of s (Exited rA))) with (Pos.succ p1).
  rewrite (waitpid_spec os (Z.pos p1) _ (Z.pos p1) (Exited rA)
             ((Z.pos (Pos.succ p1), Exited rB) :: p_children s)).
  2: apply Hwait.
  2:{ apply reap_second; [done |]. pose proof (Pos.succ_discr p1). congruence. }
  cbn [Z.eqb]. rewrite run_call.
  rewrite (waitpid_spec os (Z.pos (Pos.succ p1)) _ (Z.pos (Pos.succ p1))
             (Exited rB) (p_children s)).
  2: apply Hwait.
  2: by apply reap_first.
  cbn [Z.eqb].
  destruct (wstatus_exited rA) as [-> ->].
  destruct (wstatus_exited rB) as [-> ->]. reflexivity.
Qed.
End ParallelStatus.

(** X16: when no fork and no wait fails and no child is killed,
    [run_in_parallel] returns true exactly when the statuses of both
    commands, as their children evaluate them, are 0 modulo 256. *)
Theorem run_in_parallel_status {K : constants} (os : OS) A B level father s
    rA sA rB sB :
  reaping os -> (forall s, os_kill os s = None) ->
  run os (parse_command A (level + 1) father) (child_of s) = (Returned rA, sA) ->
  run os (parse_command B (level + 1) father)
      (child_of (parent_of s (Exited 0))) = (Returned rB, sB) ->
  fst (run os (run_in_parallel parse_command_ptr (Some A) (Some B) level father)
           s)
  = Returned ((Z.land rA 255 =? 0) && (Z.land rB 255 =? 0)).
Proof. apply run_in_parallel_run. Qed.

Lemma run_in_parallel_status_witness :
  fst (run os0 (run_in_parallel (@parse_command_ptr constants0)
                  (Some (leaf (simple "true" None)))
                  (Some (leaf (simple "cd" (word "nowhere")))) 0 None) shell0)
  = Returned false.
Proof.
  eapply (@run_in_parallel_status constants0 os0 _ _ 0 None shell0 0 _ (-1) _);
    [by split | intros; reflexivity
    | vm_compute; reflexivity | vm_compute; reflexivity].
Defined.

(** X17: the first fork of [run_on_pipe] is not checked: when it fails in a
    shell without other children, the pipe node returns 0 whatever the
    second fork and the right-hand command do. *)
Theorem pipe_first_fork_fails {K : constants} (os : OS) c level father s :
  op c = OP_PIPE ->
  os_fails os s sys_pipe = false ->
  os_fork os (snd (kernel os sys_pipe s)) = false ->
  p_children s = [] ->
  fst (run os (parse_command c level father) s) = Returned 0.
Proof.
  intros Hop Hpipe Hfork1 Hch. rewrite parse_command_unfold, Hop.
  rewrite run_bind
    by (apply run_on_pipe_tidy; intros; apply parse_command_ptr_tidy).
  assert (H : fst (run os (run_on_pipe parse_command_ptr (cmd1 c) (cmd2 c)
                             level (Some c)) s) = Returned false).
  { unfold run_on_pipe, pipe. rewrite run_call.
    destruct (pipe_spec_fds os s Hpipe)
      as (rd & wr & s1 & a & b & Ep & _ & _ & _ & _ & Hch1).
    rewrite Ep in *. cbn [snd Z.eqb] in *. rewrite Hch in Hch1.
    rewrite run_fork, Hfork1. cbn [Z.eqb bind]. rewrite run_fork.
    match goal with
    | |- context [os_fork os ?s2] => destruct (os_fork os s2)
    end; cbn [Z.eqb bind].
    - match goal with |- context [parent_of _ ?t] => generalize t end.
      intros t2. unfold close. rewrite run_call.
      match goal with
      | |- context [kernel os (sys_close rd) ?s2] =>
          pose proof (close_children os rd s2) as Hc3;
          destruct (kernel os (sys_close rd) s2) as [x3 s3]
      end.
      rewrite run_call.
      pose proof (close_children os wr s3) as Hc4.
      destruct (kernel os (sys_close wr) s3) as [x4 s4].
      cbn [snd parent_of log p_children] in *. rewrite Hc3, Hch1 in Hc4.
      unfold waitpid. rewrite run_call. cbn [kernel].
      destruct (os_fails os s4 _); [done |]. rewrite Hc4.
      cbn [reap Z.eqb Pos.eqb orb]. rewrite run_call. cbn [kernel].
      match goal with
      | |- context [os_fails os ?s5 ?c] => destruct (os_fails os s5 c)
      end; [done |]. done.
    - unfold close. rewrite run_call.
      match goal with
      | |- context [kernel os (sys_close rd) ?s2] =>
          pose proof (close_children os rd s2) as Hc3;
          destruct (kernel os (sys_close rd) s2) as [x3 s3]
      end.
      rewrite run_call.
      pose proof (close_children os wr s3) as Hc4.
      destruct (kernel os (sys_close wr) s3) as [x4 s4].
      cbn [snd log p_children] in *. rewrite Hc3, Hch1 in Hc4.
      unfold waitpid. rewrite run_call. cbn [kernel].
      destruct (os_fails os s4 _); [done |]. by rewrite Hc4. }
  destruct (run os (run_on_pipe _ _ _ _ _) s) as [[ok | t] s'];
    cbn [fst] in H; [| discriminate H].
  by injection H as ->.
Qed.

Lemma pipe_first_fork_fails_witness :
  fst (run os_no_fork_after_pipe
         (@parse_command constants0
            (node OP_PIPE (leaf (simple "true" None)) (leaf (simple "false" None)))
            0 None) shell0) = Returned 0.
Proof.
  apply (@pipe_first_fork_fails constants0 os_no_fork_after_pipe);
    reflexivity.
Defined.

(** ** Assignments, [exit] and [pwd] *)

(** An environment string with an [=] in it binds its name to its value,
    and the name has no [=] in it. *)
Lemma env_split_spec str n v :
  env_split str = Some (n, v) ->
  binds n str = true /\ after n str = v /\ strchr n "="%char = false.
Proof.
  revert n v. induction str as [| a rest IH]; intros n v; cbn [env_split];
    [done |].
  destruct (Ascii.eqb a "=") eqn:Ea.
  - intros [= <- <-]. cbn. by rewrite Ea.
  - destruct (env_split rest) as [[n' v'] |]; [| done].
    intros [= <- <-]. destruct (IH _ _ eq_refl) as (Hb & Ha & Hs).
    cbn. by rewrite Ascii.eqb_refl, Hb, Ea, Hs.
Qed.

Lemma strchr_env_split str :
  strchr str "="%char = true -> exists n v, env_split str = Some (n, v).
Proof.
  induction str as [| a rest IH]; cbn [strchr env_split]; [done |].
  destruct (Ascii.eqb a "="); cbn [orb]; [by eauto |].
  intros H. destruct (IH H) as (n & v & ->). by eauto.
Qed.

(** An entry binds one name without [=] at most. *)
Lemma binds_unique n m e :
  binds n e = true -> binds m e = true ->
  strchr n "="%char = false -> strchr m "="%char = false -> n = m.
Proof.
  revert m e. induction n as [| a n IH]; intros [| b m] [| c e];
    cbn [binds strchr]; try done.
  - intros Hc Hb Hn Hm. apply andb_prop in Hb as [Hb _].
    apply Ascii.eqb_eq in Hb as ->. by rewrite Hc in Hm.
  - intros Ha Hc Hn Hm. apply andb_prop in Ha as [Ha _].
    apply Ascii.eqb_eq in Ha as ->. by rewrite Hc in Hn.
  - intros Ha Hb Hn Hm.
    apply andb_prop in Ha as [Ha Hn']. apply andb_prop in Hb as [Hb Hm'].
    apply Ascii.eqb_eq in Ha as ->. apply Ascii.eqb_eq in Hb as ->.
    apply orb_false_elim in Hn as [_ Hn]. apply orb_false_elim in Hm as [_ Hm].
    f_equal. by apply (IH m e).
Qed.

(** After [env_set] the name has the value of the new string. *)
Lemma getenv_env_set_same n str env :
  binds n str = true -> getenv n (env_set n str env) = Some (after n str).
Proof.
  intros Hb. induction env as [| e rest IH]; cbn [env_set getenv].
  - by rewrite Hb.
  - destruct (binds n e) eqn:He; cbn [getenv]; [by rewrite Hb |].
    by rewrite He.
Qed.

(** [env_set] changes the value of no other name. *)
Lemma getenv_env_set_other n m str env :
  binds n str = true ->
  strchr n "="%char = false -> strchr m "="%char = false -> m <> n ->
  getenv m (env_set n str env) = getenv m env.
Proof.
  intros Hb Hn Hm Hne.
  assert (Hout : forall e, binds n e = true -> binds m e = false).
  { intros e He. destruct (binds m e) eqn:Hme; [| done].
    by destruct Hne; apply (binds_unique m n e). }
  induction env as [| e rest IH]; cbn [env_set getenv].
  - by rewrite (Hout str Hb).
  - destruct (binds n e) eqn:He; cbn [getenv].
    + by rewrite (Hout str Hb), (Hout e He).
    + by rewrite IH.
Qed.

(** X12: a verb with an [=] in it is an assignment: the evaluation is one
    [putenv] of the verb, with status -1 and the environment unchanged, or
    with status 0 and the verb in the environment in the place of the entry
    its name had, if it had one; the name then has the value of the verb and
    the other names have the values they had.  No process is created and
    the redirections of the command are not installed. *)
Theorem assignment_is_one_putenv {K : constants} (os : OS) sc com level father
    s :
  get_word (verb sc) = Some com -> strchr com "="%char = true ->
  run os (parse_simple (Some sc) level father) s
  = (if os_fails os s (sys_putenv com)
     then (Returned (-1), log (EPutenv com (-1)) s)
     else (Returned 0,
           log (EPutenv com 0) (set_env (putenv_env com (p_env s)) s)))
  /\ exists name value,
       env_split com = Some (name, value)
       /\ getenv name (putenv_env com (p_env s)) = Some value
       /\ (forall other,
             other <> name -> strchr other "="%char = false ->
             getenv other (putenv_env com (p_env s))
             = getenv other (p_env s)).
Proof.
  intros Hverb Heq. split.
  - unfold parse_simple.
    destruct (verb sc) as [v |]; [| discriminate Hverb].
    rewrite Hverb.
    destruct (String.eqb_spec com "cd") as [-> | _]; [discriminate Heq |].
    destruct (String.eqb_spec com "exit") as [-> | _]; [discriminate Heq |].
    destruct (String.eqb_spec com "quit") as [-> | _]; [discriminate Heq |].
    destruct (String.eqb_spec com "pwd") as [-> | _]; [discriminate Heq |].
    cbn [orb]. rewrite Heq. unfold putenv, call. cbn [run kernel].
    by destruct (os_fails os s (sys_putenv com)).
  - destruct (strchr_env_split com Heq) as (name & value & Hsplit).
    destruct (env_split_spec com name value Hsplit) as (Hb & Ha & Hn).
    exists name, value. unfold putenv_env. rewrite Hsplit.
    split; [done |]. split.
    + by rewrite getenv_env_set_same, Ha.
    + intros other Hne Ho. by apply getenv_env_set_other.
Qed.

Lemma assignment_is_one_putenv_witness :
  run os0 (@parse_simple constants0
             (Some (mk_simple_command (word "A=2") None None (word "log")
                                      None 0)) 0 None) shell_with_env
  = (Returned 0,
     log (EPutenv "A=2" 0) (set_env ["A=2"; "B=2"] shell_with_env)).
Proof.
  refine (proj1 (@assignment_is_one_putenv constants0 os0 _ "A=2" 0 None
                   shell_with_env _ _)); reflexivity.
Defined.

(** X13: how [exit] and [quit] compose: [exit && B] returns the sentinel and
    does not evaluate B; [exit || B] evaluates B and returns its status;
    [exit ; B] evaluates B and returns 0. *)
Theorem exit_in_conditionals {K : constants} (os : OS) c A sa B level father
    s :
  cmd1 c = Some A -> cmd2 c = Some B ->
  op A = OP_NONE -> scmd A = Some sa ->
  get_word (verb sa) = Some "exit" \/ get_word (verb sa) = Some "quit" ->
  SHELL_EXIT <> 0 ->
  (op c = OP_CONDITIONAL_ZERO ->
   run os (parse_command c level father) s = (Returned SHELL_EXIT, s))
  /\ (op c = OP_CONDITIONAL_NZERO ->
      run os (parse_command c level father) s
      = run os (parse_command B (level + 1) (Some c)) s)
  /\ (op c = OP_SEQUENTIAL ->
      run os (parse_command c level father) s
      = bind_outcome (run os (parse_command B level (Some c)) s)
          (fun _ s' => (Returned 0, s'))).
Proof.
  intros HA HB HopA Hsa Hverb Hne.
  assert (Hexit : forall l f, parse_command A l f = Ret SHELL_EXIT).
  { intros l f. rewrite parse_command_unfold, HopA, Hsa. unfold parse_simple.
    destruct (verb sa) as [v |]; [| by destruct Hverb]. cbn [get_word] in *.
    by destruct Hverb as [E | E]; injection E as ->. }
  assert (Hz : (SHELL_EXIT =? 0) = false) by lia.
  repeat split; intros Hop; rewrite parse_command_unfold, Hop, HA, HB;
    cbn [parse_command_ptr]; rewrite Hexit; cbn [bind]; rewrite ?Hz; try done.
  by rewrite run_bind by apply parse_command_tidy.
Qed.

Lemma exit_in_conditionals_witness :
  let A := leaf (simple "exit" None) in
  let B := leaf (simple "false" None) in
  run os0 (@parse_command constants0 (node OP_CONDITIONAL_ZERO A B) 0 None) shell0
  = (Returned (-100), shell0)
  /\ fst (run os0 (@parse_command constants0 (node OP_CONDITIONAL_NZERO A B) 0 None)
              shell0) = Returned 1
  /\ fst (run os0 (@parse_command constants0 (node OP_SEQUENTIAL A B) 0 None)
              shell0) = Returned 0.
Proof.
  intros A B.
  destruct (@exit_in_conditionals constants0 os0 (node OP_CONDITIONAL_ZERO A B)
              A (simple "exit" None) B 0 None shell0
              eq_refl eq_refl eq_refl eq_refl (or_introl eq_refl)
              ltac:(discriminate)) as (Hz & _ & _).
  destruct (@exit_in_conditionals constants0 os0 (node OP_CONDITIONAL_NZERO A B)
              A (simple "exit" None) B 0 None shell0
              eq_refl eq_refl eq_refl eq_refl (or_introl eq_refl)
              ltac:(discriminate)) as (_ & Hnz & _).
  destruct (@exit_in_conditionals constants0 os0 (node OP_SEQUENTIAL A B)
              A (simple "exit" None) B 0 None shell0
              eq_refl eq_refl eq_refl eq_refl (or_introl eq_refl)
              ltac:(discriminate)) as (_ & _ & Hs).
  split; [exact (Hz eq_refl) |]. split.
  - rewrite (Hnz eq_refl). reflexivity.
  - rewrite (Hs eq_refl). reflexivity.
Defined.

(** X11: [pwd] without redirections, when no descriptor call fails: it writes
    the working directory and a newline to the open file of descriptor 1,
    or [(null)] and a newline when [getcwd] fails, and returns 0 in both
    cases. *)
Theorem pwd_prints_working_directory {K : constants} (os : OS) sc level father
    s d1 d2 :
  get_word (verb sc) = Some "pwd" -> no_redirection sc ->
  p_fds s !! STDOUT_FILENO = Some d1 -> p_fds s !! STDERR_FILENO = Some d2 ->
  (forall s' fd, os_fails os s' (sys_dupfd fd fd) = false) ->
  (forall s' a b, os_fails os s' (sys_dup2 a b) = false) ->
  exists n1 n2 path s',
    run os (parse_simple (Some sc) level father) s = (Returned 0, s')
    /\ (path = Some (p_cwd s) \/ path = None)
    /\ p_trace s'
       = p_trace s
         ++ [EDupfd STDOUT_FILENO STDOUT_FILENO n1;
             EDupfd STDERR_FILENO STDERR_FILENO n2;
             EGetcwd path;
             EWrite STDOUT_FILENO (Some d1)
               (String.append match path with
                              | Some p => p
                              | None => "(null)"
                              end newline);
             EDup2 n1 STDOUT_FILENO STDOUT_FILENO;
             EDup2 n2 STDERR_FILENO STDERR_FILENO].
Proof.
  intros Hverb (Hin & Hout & Herr) H1 H2 Hdupfd Hdup2. unfold parse_simple.
  destruct (verb sc) as [v |]; [| discriminate Hverb]. rewrite Hverb.
  cbn -[run parse_simple_pwd_case].
  unfold parse_simple_pwd_case, fcntl_F_DUPFD, dup2, getcwd, dprintf,
    file_operations, redirect_input, redirect_output.
  rewrite Hin, Hout, Herr. cbn [bind].
  unfold STDOUT_FILENO, STDERR_FILENO in *.
  set (n1 := alloc_fd (p_fds s) 1).
  set (fds1 := <[n1 := d1]> (p_fds s)).
  set (n2 := alloc_fd fds1 2).
  assert (Hn1 : 1 < n1 /\ n1 <> 2).
  { pose proof (alloc_fd_free (p_fds s) 1) as Hfree.
    pose proof (alloc_fd_ge (p_fds s) 1) as Hge. fold n1 in Hfree, Hge.
    split; [| congruence].
    destruct (Z.eq_dec n1 1) as [E | ?]; [| lia]. congruence. }
  assert (Hn2 : 2 < n2 /\ n2 <> n1).
  { pose proof (alloc_fd_free fds1 2) as Hfree.
    pose proof (alloc_fd_ge fds1 2) as Hge. fold n2 in Hfree, Hge.
    unfold fds1 in Hfree. split.
    - destruct (Z.eq_dec n2 2) as [E | ?]; [| lia].
      rewrite E, lookup_insert_ne in Hfree by lia. congruence.
    - intros E. by rewrite E, lookup_insert_eq in Hfree. }
  destruct Hn1 as [Hn1 Hn1']. destruct Hn2 as [Hn2 Hn2'].
  set (s2 := log (EDupfd 2 2 n2)
                (set_fds (<[n2 := d2]> fds1)
                   (log (EDupfd 1 1 n1) (set_fds fds1 s)))).
  assert (Hg : exists path,
             (path = Some (p_cwd s) \/ path = None)
             /\ kernel os (sys_getcwd PATH_MAX) s2
                = (path, log (EGetcwd path) s2)).
  { cbn [kernel]. destruct (_ || _); eexists; (split; [| reflexivity]); auto. }
  destruct Hg as (path & Hpath & Hg).
  exists n1, n2, path. eexists. split; [| split; [exact Hpath |]].
  - rewrite run_call. cbn [kernel]. rewrite H1, Hdupfd.
    change (1 <? 0) with false. cbn [orb].
    fold n1. rewrite run_call. cbn [kernel log set_fds p_fds]. fold fds1.
    replace (fds1 !! 2) with (Some d2)
      by (unfold fds1; by rewrite lookup_insert_ne by lia).
    rewrite Hdupfd. change (2 <? 0) with false. cbn [orb]. fold n2. fold s2.
    assert (Hfds2 : p_fds s2 = <[n2 := d2]> fds1) by reflexivity.
    rewrite run_call, Hg.
    rewrite run_call. cbn [kernel log set_fds p_fds]. rewrite Hfds2.
    replace (<[n2:=d2]> fds1 !! 1) with (Some d1)
      by (unfold fds1; by rewrite !lookup_insert_ne by lia).
    rewrite run_call. cbn [kernel log set_fds p_fds]. rewrite Hfds2.
    replace (<[n2:=d2]> fds1 !! n1) with (Some d1)
      by (unfold fds1; by rewrite lookup_insert_ne, lookup_insert_eq by lia).
    rewrite Hdup2. change (1 <? 0) with false. cbn [orb Z.eqb].
    rewrite run_call.
    cbn [kernel log set_fds p_fds].
    replace (<[1:=d1]> (<[n2:=d2]> fds1) !! n2) with (Some d2)
      by (by rewrite lookup_insert_ne, lookup_insert_eq by lia).
    rewrite Hdup2. change (2 <? 0) with false. cbn [orb Z.eqb run].
    reflexivity.
  - subst s2. cbn [log set_fds p_trace]. by rewrite <- !app_assoc.
Qed.

Lemma pwd_prints_working_directory_witness :
  exists n1 n2 path s',
    run os0 (@parse_simple constants0 (Some (simple "pwd" None)) 0 None) shell0
    = (Returned 0, s')
    /\ (path = Some "/a/b" \/ path = None)
    /\ p_trace s'
       = [EDupfd 1 1 n1; EDupfd 2 2 n2; EGetcwd path;
          EWrite 1 (Some (tty 1))
            (String.append match path with
                           | Some p => p
                           | None => "(null)"
                           end newline);
          EDup2 n1 1 1; EDup2 n2 2 2].
Proof.
  apply (@pwd_prints_working_directory constants0 os0 (simple "pwd" None) 0
           None shell0 (tty 1) (tty 2));
    [reflexivity | by repeat split | reflexivity | reflexivity
    | intros; reflexivity | intros; reflexivity].
Defined.

(** ** Failures of an external command; [pwd] into a file *)

Lemma pipe_failure_returns_zero_witness :
  run os_no_pipe
    (@parse_command constants0
       (node OP_PIPE (leaf (simple "true" None)) (leaf (simple "false" None)))
       0 None) shell0
  = (Returned 0, log (EPipe (-1) 0 0) shell0).
Proof.
  apply (@pipe_failure_returns_zero constants0 os_no_pipe); reflexivity.
Defined.

Lemma sequential_run_witness :
  let c := node OP_SEQUENTIAL (leaf (simple "cd" (word "sub")))
                (leaf (simple "pwd" None)) in
  run os0 (@parse_command constants0 c 0 None) shell0 =
  bind_outcome
    (run os0 (@parse_command_ptr constants0 (cmd1 c) 0 (Some c)) shell0)
    (fun _ s1 =>
       bind_outcome
         (run os0 (@parse_command_ptr constants0 (cmd2 c) 0 (Some c)) s1)
         (fun _ s2 => (Returned 0, s2))).
Proof.
  intros c. apply (@sequential_run constants0 os0 c 0 None shell0).
  reflexivity.
Defined.

(** X6: an external command returns -1 when its child cannot be created,
    having done nothing else, and when the wait for its child fails; the
    child is then left among the children not waited for. *)
Theorem external_spawn_or_wait_failure {K : constants} (os : OS) com sc s :
  (os_fork os s = false ->
   run os (parse_simple_external com sc) s = (Returned (-1), log (EFork (-1)) s))
  /\ (os_fork os s = true ->
      (forall s', os_fails os s' (sys_waitpid (Z.pos (p_next_pid s)) 0) = true) ->
      let r := run os (parse_simple_external com sc) s in
      fst r = Returned (-1)
      /\ exists t, p_children (snd r) = (Z.pos (p_next_pid s), t) :: p_children s).
Proof.
  unfold parse_simple_external. split.
  - intros Hfork. by rewrite run_fork, Hfork.
  - intros Hfork Hwait. cbv zeta. rewrite run_fork, Hfork.
    match goal with |- context [parent_of s ?t] => generalize t end.
    intros t. cbn [Z.eqb]. unfold waitpid. rewrite run_call. cbn [kernel].
    rewrite Hwait. cbn [Z.eqb Pos.eqb run fst snd]. split; [done |].
    by exists t.
Qed.

Lemma external_spawn_or_wait_failure_witness :
  run os_one_child (@parse_simple_external constants0 "true" (simple "true" None))
      (parent_of shell0 (Exited 0))
  = (Returned (-1), log (EFork (-1)) (parent_of shell0 (Exited 0)))
  /\ fst (run os_no_wait
            (@parse_simple_external constants0 "true" (simple "true" None))
            shell0) = Returned (-1).
Proof.
  split.
  - apply (@external_spawn_or_wait_failure constants0 os_one_child). reflexivity.
  - apply (@external_spawn_or_wait_failure constants0 os_no_wait "true"
             (simple "true" None) shell0); [reflexivity | intros; reflexivity].
Defined.

Section OutputOnly.
Context {K : constants} (os : OS).

(** [file_operations] with an output target only, when nothing fails: the
    file is opened and put on standard output. *)
Lemma file_operations_out_only sc wo s :
  in_ sc = None -> out sc = Some wo -> err sc = None ->
  (forall s' flags,
     os_fails os s' (sys_open (Some (w_text wo)) flags 420) = false) ->
  (forall s' a b, os_fails os s' (sys_dup2 a b) = false) ->
  is_Some (p_fds s !! STDOUT_FILENO) ->
  exists s',
    run os (file_operations sc) s = (Returned tt, s')
    /\ p_fds s' !! STDOUT_FILENO
       = Some (mk_ofd (List.length (p_trace s)) (Path (w_text wo) (out_flags sc))).
Proof.
  intros Hin Hout Herr Hopen Hdup [d1 H1].
  unfold file_operations, redirect_input, redirect_output, out_flags.
  rewrite Hin, Hout, Herr. cbn [bind get_word].
  unfold STDOUT_FILENO in *.
  set (fd := alloc_fd (p_fds s) 0).
  pose proof (alloc_fd_free (p_fds s) 0) as Hfree.
  pose proof (alloc_fd_ge (p_fds s) 0) as Hge. fold fd in Hfree, Hge.
  assert (Hfd1 : fd <> 1) by congruence.
  assert (Hneg : (fd =? -1) = false) by lia.
  destruct (negb (Z.land (io_flags sc) (Z.lor IO_OUT_APPEND IO_ERR_APPEND) =? 0));
    unfold open, dup2, close, call; cbn [bind]; rewrite run_Call;
    cbn [kernel]; rewrite Hopen; fold fd; rewrite run_Call;
    cbn [kernel log set_fds p_fds]; rewrite lookup_insert_eq, Hdup;
    change (1 <? 0) with false; cbn [orb]; rewrite Hneg; cbn [negb andb bind];
    rewrite run_Call; cbn [kernel log set_fds p_fds];
    rewrite lookup_insert_ne, lookup_insert_eq by done;
    cbn [Z.eqb Pos.eqb negb bind run]; eexists; (split; [reflexivity |]);
    cbn [log set_fds p_fds];
    by rewrite lookup_delete_ne, lookup_insert_eq.
Qed.

Lemma dup2_result oldfd newfd s :
  is_Some (p_fds s !! oldfd) -> 0 <= newfd ->
  os_fails os s (sys_dup2 oldfd newfd) = false ->
  exists d, p_fds s !! oldfd = Some d
            /\ kernel os (sys_dup2 oldfd newfd) s
               = (newfd, log (EDup2 oldfd newfd newfd)
                             (set_fds (<[newfd := d]> (p_fds s)) s)).
Proof.
  intros [d E] Hnew Hok. exists d. split; [done |]. cbn [kernel].
  rewrite E, Hok. by replace (newfd <? 0) with false by lia.
Qed.
End OutputOnly.

(** X20: [pwd] with an output target, when no descriptor call fails: what it
    writes goes to the target, and descriptor 1 is afterwards the open file
    it was before. *)
Theorem pwd_honours_output_redirection {K : constants} (os : OS) sc wo level
    father s d1 d2 :
  get_word (verb sc) = Some "pwd" ->
  in_ sc = None -> out sc = Some wo -> err sc = None ->
  p_fds s !! STDOUT_FILENO = Some d1 -> p_fds s !! STDERR_FILENO = Some d2 ->
  (forall s' fd, os_fails os s' (sys_dupfd fd fd) = false) ->
  (forall s' flags,
     os_fails os s' (sys_open (Some (w_text wo)) flags 420) = false) ->
  (forall s' a b, os_fails os s' (sys_dup2 a b) = false) ->
  exists id path s',
    run os (parse_simple (Some sc) level father) s = (Returned 0, s')
    /\ In (EWrite STDOUT_FILENO
             (Some (mk_ofd id (Path (w_text wo) (out_flags sc))))
             (String.append match path with
                            | Some p => p
                            | None => "(null)"
                            end newline)) (p_trace s')
    /\ p_fds s' !! STDOUT_FILENO = Some d1.
Proof.
  intros Hverb Hin Hout Herr H1 H2 Hdupfd Hopen Hdup. unfold parse_simple.
  destruct (verb sc) as [v |]; [| discriminate Hverb]. rewrite Hverb.
  cbn -[run parse_simple_pwd_case].
  unfold parse_simple_pwd_case, fcntl_F_DUPFD, getcwd, dprintf.
  unfold STDOUT_FILENO, STDERR_FILENO in *.
  destruct (kernel os (sys_dupfd 1 1) s) as [n1 s1] eqn:E1.
  destruct (dupfd_spec os 1 s n1 s1 d1 E1 H1 ltac:(done) (Hdupfd _ _))
    as (Hn1 & Hfree1 & Hs1).
  assert (H2' : p_fds s1 !! 2 = Some d2).
  { rewrite Hs1, lookup_insert_ne; [done | congruence]. }
  destruct (kernel os (sys_dupfd 2 2) s1) as [n2 s2] eqn:E2.
  destruct (dupfd_spec os 2 s1 n2 s2 d2 E2 H2' ltac:(done) (Hdupfd _ _))
    as (Hn2 & Hfree2 & Hs2).
  assert (Hn12 : n1 <> n2).
  { intros <-. by rewrite Hs1, lookup_insert_eq in Hfree2. }
  assert (Hn1' : 2 < n1).
  { destruct (Z.eq_dec n1 2) as [-> | ?]; [congruence | lia]. }
  assert (Hsaved1 : p_fds s2 !! n1 = Some d1).
  { by rewrite Hs2, Hs1, lookup_insert_ne, lookup_insert_eq. }
  assert (Hsaved2 : p_fds s2 !! n2 = Some d2).
  { by rewrite Hs2, lookup_insert_eq. }
  assert (Hout2 : is_Some (p_fds s2 !! 1)).
  { exists d1. by rewrite Hs2, Hs1, !lookup_insert_ne by lia. }
  destruct (file_operations_out_only os sc wo s2 Hin Hout Herr Hopen Hdup Hout2)
    as (s3 & Efo & Hfile).
  unfold STDOUT_FILENO in Hfile.
  pose proof (file_operations_keeps os sc s2 s3 n1 d1 Efo
                ltac:(unfold STDIN_FILENO; lia) ltac:(unfold STDOUT_FILENO; lia)
                ltac:(unfold STDERR_FILENO; lia) Hsaved1) as Hk1.
  pose proof (file_operations_keeps os sc s2 s3 n2 d2 Efo
                ltac:(unfold STDIN_FILENO; lia) ltac:(unfold STDOUT_FILENO; lia)
                ltac:(unfold STDERR_FILENO; lia) Hsaved2) as Hk2.
  pose proof (getcwd_fds os PATH_MAX s3) as Hg.
  destruct (kernel os (sys_getcwd PATH_MAX) s3) as [path s3a] eqn:Eg.
  cbn [snd] in Hg.
  set (file := mk_ofd (List.length (p_trace s2)) (Path (w_text wo) (out_flags sc))).
  set (text := String.append match path with
                             | Some p => p
                             | None => "(null)"
                             end newline).
  set (s3b := log (EWrite 1 (Some file) text) s3a).
  assert (Hfds3b : p_fds s3b = p_fds s3) by (by rewrite <- Hg).
  destruct (dup2_result os n1 1 s3b) as (d & Hd & E3);
    [by rewrite Hfds3b, Hk1 | done | apply Hdup |].
  rewrite Hfds3b, Hk1 in Hd. injection Hd as <-.
  set (s4 := log (EDup2 n1 1 1) (set_fds (<[1 := d1]> (p_fds s3b)) s3b)) in *.
  destruct (dup2_result os n2 2 s4) as (d & Hd & E4);
    [| done | apply Hdup |].
  { exists d2. subst s4. cbn [log set_fds p_fds].
    by rewrite lookup_insert_ne, Hfds3b by lia. }
  assert (Hd2 : d = d2).
  { subst s4. cbn [log set_fds p_fds] in Hd.
    rewrite lookup_insert_ne, Hfds3b, Hk2 in Hd by lia. congruence. }
  subst d.
  exists (List.length (p_trace s2)), path. eexists. split; [| split].
  - rewrite run_call, E1. rewrite run_call, E2.
    rewrite run_bind by apply file_operations_tidy.
    rewrite Efo. cbn [bind_outcome]. rewrite run_call, Eg.
    rewrite run_call. cbn [kernel]. rewrite Hg, Hfile.
    fold file text s3b. unfold dup2. rewrite run_call, E3. cbn [Z.eqb].
    rewrite run_call, E4. reflexivity.
  - subst s4 s3b. cbn [log set_fds p_trace]. rewrite !in_app_iff.
    left. left. right. by left.
  - subst s4. cbn [log set_fds p_fds].
    by rewrite lookup_insert_ne, lookup_insert_eq.
Qed.

Lemma pwd_honours_output_redirection_witness :
  exists id path s',
    run os0 (@parse_simple constants0 (Some pwd_to_log) 0 None) shell0
    = (Returned 0, s')
    /\ In (EWrite 1 (Some (mk_ofd id (Path "log" 577)))
             (String.append match path with
                            | Some p => p
                            | None => "(null)"
                            end newline)) (p_trace s')
    /\ p_fds s' !! 1 = Some (tty 1).
Proof.
  apply (@pwd_honours_output_redirection constants0 os0 pwd_to_log
           (mk_word "log" None) 0 None shell0 (tty 1) (tty 2));
    try reflexivity; intros; reflexivity.
Defined.

Lemma external_killed_witness :
  fst (run os_crash (@parse_simple_external constants0 "crash" (simple "crash" None))
           shell0) = Returned (-1).
Proof.
  eapply (@external_killed constants0 os_crash "crash" (simple "crash" None)
            ["crash"] shell0 _ SIGSEGV);
    [reflexivity | reflexivity | intros s'; reflexivity
    | reflexivity | reflexivity | reflexivity | by vm_compute].
Defined.

Lemma file_operations_keeps_other_descriptors_witness :
  p_fds (snd (run os0 (@file_operations constants0 both_to_log) shell_with_7))
    !! 7 = Some (tty 7).
Proof.
  apply (@file_operations_keeps_other_descriptors constants0 os0 both_to_log
           shell_with_7 _ 7 (tty 7));
    [vm_compute; reflexivity | done | done | done | reflexivity].
Defined.
